(** * macOS Notes and Calendar skills: a shallow embedding

    The development follows two scripts of the repository:

    - [macos-notes/scripts/notes_manager.py]: a command line front end that
      assembles AppleScript programs as text, hands them to [osascript] and
      decodes the text that comes back;
    - [macos-calendar/scripts/calendar_utils.py]: a manager class over
      EventKit with a small command line front end.

    Python [str] values are modelled as [string]; one [ascii] stands for one
    character whose code point is below 256.  Python dictionaries are
    association lists in insertion order.  Everything the scripts obtain from
    the host (the [osascript] subprocess, the Notes application, EventKit) is
    an explicit argument of the function that uses it. *)

From Stdlib Require Import String Ascii List Bool ZArith Lia.
Import ListNotations.

Local Open Scope string_scope.
Local Open Scope list_scope.

(** ** Python string primitives used by the scripts *)

Module PyStr.

Definition LF : ascii := "010"%char.
Definition DQUOTE : ascii := "034"%char.
Definition BACKSLASH : ascii := "092"%char.

(** [str.isspace] on one character, for code points below 256. *)
Definition isspace (c : ascii) : bool :=
  let n := nat_of_ascii c in
  (((9 <=? n) && (n <=? 13)) || ((28 <=? n) && (n <=? 32))
   || (n =? 133) || (n =? 160))%nat.

Fixpoint lstrip (s : string) : string :=
  match s with
  | EmptyString => EmptyString
  | String c r => if isspace c then lstrip r else s
  end.

Fixpoint rstrip (s : string) : string :=
  match s with
  | EmptyString => EmptyString
  | String c r =>
      match rstrip r with
      | EmptyString => if isspace c then EmptyString else String c EmptyString
      | r' => String c r'
      end
  end.

(** [s.strip()] *)
Definition strip (s : string) : string := rstrip (lstrip s).

(** Truth value of a [str]: the empty string is false. *)
Definition nonempty (s : string) : bool :=
  match s with EmptyString => false | String _ _ => true end.

(** [s.split(sep)] for a one-character separator: never an empty list. *)
Fixpoint split (sep : ascii) (s : string) : list string :=
  match s with
  | EmptyString => [EmptyString]
  | String c r =>
      if Ascii.eqb c sep then EmptyString :: split sep r
      else match split sep r with
           | h :: t => String c h :: t
           | [] => [String c EmptyString]
           end
  end.

(** [s.startswith(p)] *)
Definition startswith (s p : string) : bool := String.prefix p s.

(** [s.replace(old, new)] where [old] is a single character, the only
    form the scripts use. *)
Fixpoint replace (old : ascii) (new : string) (s : string) : string :=
  match s with
  | EmptyString => EmptyString
  | String c r =>
      if Ascii.eqb c old then new ++ replace old new r
      else String c (replace old new r)
  end.

(** [str.lower] on one character, for code points below 256, the range
    of this model; beyond it [str.lower] can also change the number of
    characters, which nothing here relies on. *)
Definition lower_char (c : ascii) : ascii :=
  let n := nat_of_ascii c in
  if (((65 <=? n) && (n <=? 90))
      || ((192 <=? n) && (n <=? 222) && negb (n =? 215)))%nat
  then ascii_of_nat (n + 32) else c.

Fixpoint lower (s : string) : string :=
  match s with
  | EmptyString => EmptyString
  | String c r => String (lower_char c) (lower r)
  end.

(** What reading in text mode does to line ends (universal newlines):
    a carriage return, alone or followed by a line feed, becomes one
    line feed.  [after_cr] tells that the character before was a
    carriage return. *)
Fixpoint newlines (after_cr : bool) (s : string) : string :=
  match s with
  | EmptyString => EmptyString
  | String c r =>
      if Ascii.eqb c "013" then String LF (newlines true r)
      else if Ascii.eqb c LF then
        if after_cr then newlines false r else String LF (newlines false r)
      else String c (newlines false r)
  end.

Definition universal_newlines (s : string) : string := newlines false s.

(** Truth value of an [Optional[str]]: [None] and the empty string are
    false. *)
Definition truthy (o : option string) : bool :=
  match o with
  | Some s => nonempty s
  | None => false
  end.

(** The [str] behind a truthy [Optional[str]]. *)
Definition the (o : option string) : string :=
  match o with Some s => s | None => EmptyString end.

End PyStr.

(** ** Python values that end up in the printed documents *)

Module Py.

Inductive value :=
| Bool (b : bool)
| Str (s : string)
| Int (z : Z)
| StrList (l : list string)
| NoneValue.

(** A [dict] with string keys, in insertion order. *)
Definition dict := list (string * value).

(** [d.get(key, default)] *)
Fixpoint get (d : dict) (key : string) (default : value) : value :=
  match d with
  | [] => default
  | (k, v) :: r => if String.eqb k key then v else get r key default
  end.

(** Truth value of a Python object. *)
Definition truth (v : value) : bool :=
  match v with
  | Bool b => b
  | Str s => PyStr.nonempty s
  | Int z => negb (z =? 0)%Z
  | StrList l => match l with [] => false | _ :: _ => true end
  | NoneValue => false
  end.

(** Python exceptions raised by the calendar manager. *)
Inductive exn :=
| ValueError (message : string)
| RuntimeError (message : string)
| AttributeError (message : string).

Inductive result (A : Type) :=
| Return (a : A)
| Raise (e : exn).

Arguments Return {A} a.
Arguments Raise {A} e.

End Py.

(** ** notes_manager.py *)

Module Notes.

Import PyStr.

(** What [subprocess.run(["osascript", "-e", script], capture_output=True,
    text=True, timeout=30)] can do: return a completed process, raise
    [subprocess.TimeoutExpired] after 30 seconds, or raise another
    [Exception] (for instance [FileNotFoundError] when there is no
    [osascript], or [ValueError] on an embedded null byte), of which only
    [str(e)] is used. *)
Inductive run_outcome :=
| Completed (returncode : Z) (stdout stderr : string)
| TimeoutExpired
| OtherException (message : string).

(** The pieces of a Python (f-)string literal: literal text, the
    double-quote character, a line feed, and an interpolated value. *)
Inductive part :=
| T (text : string)
| Q
| NL
| V (value : string).

Definition part_text (p : part) : string :=
  match p with
  | T s => s
  | Q => String DQUOTE EmptyString
  | NL => String LF EmptyString
  | V s => s
  end.

Fixpoint fstring (parts : list part) : string :=
  match parts with
  | [] => EmptyString
  | p :: r => part_text p ++ fstring r
  end.

(** [escape_for_applescript] *)
Definition escape_for_applescript (text : string) : string :=
  replace DQUOTE (String BACKSLASH (String DQUOTE EmptyString))
    (replace BACKSLASH (String BACKSLASH (String BACKSLASH EmptyString)) text).

(** [[line.strip() for line in output.split("\n") if line.strip()]], the
    comprehension shared by the list-producing commands. *)
Definition stripped_lines (output : string) : list string :=
  map strip (filter (fun line => nonempty (strip line)) (split LF output)).

Definition failure (output : string) : Py.dict :=
  [("success", Py.Bool false); ("error", Py.Str output)].

Definition count_of (l : list string) : Py.value :=
  Py.Int (Z.of_nat (List.length l)).

(** *** The scripts, as the source assembles them *)

Definition list_accounts_script : string :=
  fstring
    [ NL;
      T "    tell application "; Q; T "Notes"; Q; NL;
      T "        set accountList to "; Q; Q; NL;
      T "        repeat with a in accounts"; NL;
      T "            set accountList to accountList & name of a & linefeed"; NL;
      T "        end repeat"; NL;
      T "        return accountList"; NL;
      T "    end tell"; NL;
      T "    " ].

Definition list_folders_script : string :=
  fstring
    [ NL;
      T "    tell application "; Q; T "Notes"; Q; NL;
      T "        set folderList to "; Q; Q; NL;
      T "        repeat with a in accounts"; NL;
      T "            set accountName to name of a"; NL;
      T "            repeat with f in folders of a"; NL;
      T "                set folderList to folderList & accountName & "; Q; T " > "; Q; T " & name of f & "; Q; T " ("; Q; T " & (count of notes in f) & "; Q; T " notes)"; Q; T " & linefeed"; NL;
      T "            end repeat"; NL;
      T "        end repeat"; NL;
      T "        return folderList"; NL;
      T "    end tell"; NL;
      T "    " ].

Definition list_notes_script (folder account : option string) : string :=
  if truthy account && truthy folder then
    let escaped_account := escape_for_applescript (the account) in
    let escaped_folder := escape_for_applescript (the folder) in
    fstring
      [ NL;
        T "        tell application "; Q; T "Notes"; Q; NL;
        T "            set noteList to "; Q; Q; NL;
        T "            try"; NL;
        T "                set targetAccount to account "; Q; V escaped_account; Q; NL;
        T "                set targetFolder to folder "; Q; V escaped_folder; Q; T " of targetAccount"; NL;
        T "                repeat with n in notes of targetFolder"; NL;
        T "                    set noteList to noteList & name of n & linefeed"; NL;
        T "                end repeat"; NL;
        T "            on error errMsg"; NL;
        T "                return "; Q; T "ERROR: "; Q; T " & errMsg"; NL;
        T "            end try"; NL;
        T "            return noteList"; NL;
        T "        end tell"; NL;
        T "        " ]
  else if truthy account then
    let escaped_account := escape_for_applescript (the account) in
    fstring
      [ NL;
        T "        tell application "; Q; T "Notes"; Q; NL;
        T "            set noteList to "; Q; Q; NL;
        T "            try"; NL;
        T "                set targetAccount to account "; Q; V escaped_account; Q; NL;
        T "                repeat with n in notes of targetAccount"; NL;
        T "                    set noteList to noteList & name of n & linefeed"; NL;
        T "                end repeat"; NL;
        T "            on error errMsg"; NL;
        T "                return "; Q; T "ERROR: "; Q; T " & errMsg"; NL;
        T "            end try"; NL;
        T "            return noteList"; NL;
        T "        end tell"; NL;
        T "        " ]
  else if truthy folder then
    let escaped_folder := escape_for_applescript (the folder) in
    fstring
      [ NL;
        T "        tell application "; Q; T "Notes"; Q; NL;
        T "            set noteList to "; Q; Q; NL;
        T "            repeat with a in accounts"; NL;
        T "                try"; NL;
        T "                    set targetFolder to folder "; Q; V escaped_folder; Q; T " of a"; NL;
        T "                    repeat with n in notes of targetFolder"; NL;
        T "                        set noteList to noteList & (name of a) & "; Q; T " > "; Q; T " & name of n & linefeed"; NL;
        T "                    end repeat"; NL;
        T "                end try"; NL;
        T "            end repeat"; NL;
        T "            return noteList"; NL;
        T "        end tell"; NL;
        T "        " ]
  else
    fstring
      [ NL;
        T "        tell application "; Q; T "Notes"; Q; NL;
        T "            set noteList to "; Q; Q; NL;
        T "            repeat with a in accounts"; NL;
        T "                set accountName to name of a"; NL;
        T "                repeat with n in notes of a"; NL;
        T "                    set noteList to noteList & accountName & "; Q; T " > "; Q; T " & name of n & linefeed"; NL;
        T "                end repeat"; NL;
        T "            end repeat"; NL;
        T "            return noteList"; NL;
        T "        end tell"; NL;
        T "        " ].

Definition create_note_script (title body : string)
  (folder account : option string) : string :=
  let escaped_title := escape_for_applescript title in
  let escaped_body := escape_for_applescript body in
  if truthy account && truthy folder then
    let escaped_account := escape_for_applescript (the account) in
    let escaped_folder := escape_for_applescript (the folder) in
    fstring
      [ NL;
        T "        tell application "; Q; T "Notes"; Q; NL;
        T "            try"; NL;
        T "                set targetAccount to account "; Q; V escaped_account; Q; NL;
        T "                set targetFolder to folder "; Q; V escaped_folder; Q; T " of targetAccount"; NL;
        T "                set newNote to make new note at targetFolder with properties {name:"; Q; V escaped_title; Q; T ", body:"; Q; V escaped_body; Q; T "}"; NL;
        T "                return "; Q; T "SUCCESS: Created note '"; Q; T " & name of newNote & "; Q; T "'"; Q; NL;
        T "            on error errMsg"; NL;
        T "                return "; Q; T "ERROR: "; Q; T " & errMsg"; NL;
        T "            end try"; NL;
        T "        end tell"; NL;
        T "        " ]
  else if truthy account then
    let escaped_account := escape_for_applescript (the account) in
    fstring
      [ NL;
        T "        tell application "; Q; T "Notes"; Q; NL;
        T "            try"; NL;
        T "                set targetAccount to account "; Q; V escaped_account; Q; NL;
        T "                set defaultFolder to default folder of targetAccount"; NL;
        T "                set newNote to make new note at defaultFolder with properties {name:"; Q; V escaped_title; Q; T ", body:"; Q; V escaped_body; Q; T "}"; NL;
        T "                return "; Q; T "SUCCESS: Created note '"; Q; T " & name of newNote & "; Q; T "'"; Q; NL;
        T "            on error errMsg"; NL;
        T "                return "; Q; T "ERROR: "; Q; T " & errMsg"; NL;
        T "            end try"; NL;
        T "        end tell"; NL;
        T "        " ]
  else if truthy folder then
    let escaped_folder := escape_for_applescript (the folder) in
    fstring
      [ NL;
        T "        tell application "; Q; T "Notes"; Q; NL;
        T "            try"; NL;
        T "                -- Find folder in any account"; NL;
        T "                repeat with a in accounts"; NL;
        T "                    try"; NL;
        T "                        set targetFolder to folder "; Q; V escaped_folder; Q; T " of a"; NL;
        T "                        set newNote to make new note at targetFolder with properties {name:"; Q; V escaped_title; Q; T ", body:"; Q; V escaped_body; Q; T "}"; NL;
        T "                        return "; Q; T "SUCCESS: Created note '"; Q; T " & name of newNote & "; Q; T "' in "; Q; T " & name of a"; NL;
        T "                    end try"; NL;
        T "                end repeat"; NL;
        T "                return "; Q; T "ERROR: Folder not found"; Q; NL;
        T "            on error errMsg"; NL;
        T "                return "; Q; T "ERROR: "; Q; T " & errMsg"; NL;
        T "            end try"; NL;
        T "        end tell"; NL;
        T "        " ]
  else
    fstring
      [ NL;
        T "        tell application "; Q; T "Notes"; Q; NL;
        T "            try"; NL;
        T "                set targetAccount to first account"; NL;
        T "                set defaultFolder to default folder of targetAccount"; NL;
        T "                set newNote to make new note at defaultFolder with properties {name:"; Q; V escaped_title; Q; T ", body:"; Q; V escaped_body; Q; T "}"; NL;
        T "                return "; Q; T "SUCCESS: Created note '"; Q; T " & name of newNote & "; Q; T "' in "; Q; T " & name of targetAccount"; NL;
        T "            on error errMsg"; NL;
        T "                return "; Q; T "ERROR: "; Q; T " & errMsg"; NL;
        T "            end try"; NL;
        T "        end tell"; NL;
        T "        " ].

Definition read_note_script (title : string) (folder account : option string)
  (plaintext : bool) : string :=
  let escaped_title := escape_for_applescript title in
  let content_property := if plaintext then "plaintext" else "body" in
  if truthy account then
    let escaped_account := escape_for_applescript (the account) in
    if truthy folder then
      let escaped_folder := escape_for_applescript (the folder) in
      fstring
        [ NL;
          T "            tell application "; Q; T "Notes"; Q; NL;
          T "                try"; NL;
          T "                    set targetAccount to account "; Q; V escaped_account; Q; NL;
          T "                    set targetFolder to folder "; Q; V escaped_folder; Q; T " of targetAccount"; NL;
          T "                    set targetNote to first note of targetFolder whose name is "; Q; V escaped_title; Q; NL;
          T "                    return "; V content_property; T " of targetNote"; NL;
          T "                on error errMsg"; NL;
          T "                    return "; Q; T "ERROR: "; Q; T " & errMsg"; NL;
          T "                end try"; NL;
          T "            end tell"; NL;
          T "            " ]
    else
      fstring
        [ NL;
          T "            tell application "; Q; T "Notes"; Q; NL;
          T "                try"; NL;
          T "                    set targetAccount to account "; Q; V escaped_account; Q; NL;
          T "                    set targetNote to first note of targetAccount whose name is "; Q; V escaped_title; Q; NL;
          T "                    return "; V content_property; T " of targetNote"; NL;
          T "                on error errMsg"; NL;
          T "                    return "; Q; T "ERROR: "; Q; T " & errMsg"; NL;
          T "                end try"; NL;
          T "            end tell"; NL;
          T "            " ]
  else
    fstring
      [ NL;
        T "        tell application "; Q; T "Notes"; Q; NL;
        T "            repeat with a in accounts"; NL;
        T "                try"; NL;
        T "                    set targetNote to first note of a whose name is "; Q; V escaped_title; Q; NL;
        T "                    return "; V content_property; T " of targetNote"; NL;
        T "                end try"; NL;
        T "            end repeat"; NL;
        T "            return "; Q; T "ERROR: Note not found"; Q; NL;
        T "        end tell"; NL;
        T "        " ].

Definition search_notes_script (query : string) : string :=
  let escaped_query := escape_for_applescript (lower query) in
  fstring
    [ NL;
      T "    tell application "; Q; T "Notes"; Q; NL;
      T "        set matchingNotes to "; Q; Q; NL;
      T "        set searchQuery to "; Q; V escaped_query; Q; NL;
      T "        repeat with a in accounts"; NL;
      T "            set accountName to name of a"; NL;
      T "            repeat with n in notes of a"; NL;
      T "                try"; NL;
      T "                    set noteName to name of n"; NL;
      T "                    set noteBody to plaintext of n"; NL;
      T "                    set lowerName to do shell script "; Q; T "echo "; Q; T " & quoted form of noteName & "; Q; T " | tr '[:upper:]' '[:lower:]'"; Q; NL;
      T "                    set lowerBody to do shell script "; Q; T "echo "; Q; T " & quoted form of noteBody & "; Q; T " | tr '[:upper:]' '[:lower:]'"; Q; NL;
      T "                    if (lowerBody contains searchQuery) or (lowerName contains searchQuery) then"; NL;
      T "                        set matchingNotes to matchingNotes & accountName & "; Q; T " > "; Q; T " & noteName & linefeed"; NL;
      T "                    end if"; NL;
      T "                end try"; NL;
      T "            end repeat"; NL;
      T "        end repeat"; NL;
      T "        return matchingNotes"; NL;
      T "    end tell"; NL;
      T "    " ].

Definition delete_note_script (title : string) (folder account : option string)
  : string :=
  let escaped_title := escape_for_applescript title in
  if truthy account then
    let escaped_account := escape_for_applescript (the account) in
    fstring
      [ NL;
        T "        tell application "; Q; T "Notes"; Q; NL;
        T "            try"; NL;
        T "                set targetAccount to account "; Q; V escaped_account; Q; NL;
        T "                set targetNote to first note of targetAccount whose name is "; Q; V escaped_title; Q; NL;
        T "                delete targetNote"; NL;
        T "                return "; Q; T "SUCCESS: Deleted note '"; V title; T "'"; Q; NL;
        T "            on error errMsg"; NL;
        T "                return "; Q; T "ERROR: "; Q; T " & errMsg"; NL;
        T "            end try"; NL;
        T "        end tell"; NL;
        T "        " ]
  else
    fstring
      [ NL;
        T "        tell application "; Q; T "Notes"; Q; NL;
        T "            repeat with a in accounts"; NL;
        T "                try"; NL;
        T "                    set targetNote to first note of a whose name is "; Q; V escaped_title; Q; NL;
        T "                    delete targetNote"; NL;
        T "                    return "; Q; T "SUCCESS: Deleted note '"; V title; T "' from "; Q; T " & name of a"; NL;
        T "                end try"; NL;
        T "            end repeat"; NL;
        T "            return "; Q; T "ERROR: Note not found"; Q; NL;
        T "        end tell"; NL;
        T "        " ].

Definition create_folder_script (name : string) (account : option string)
  : string :=
  let escaped_name := escape_for_applescript name in
  if truthy account then
    let escaped_account := escape_for_applescript (the account) in
    fstring
      [ NL;
        T "        tell application "; Q; T "Notes"; Q; NL;
        T "            try"; NL;
        T "                set targetAccount to account "; Q; V escaped_account; Q; NL;
        T "                set newFolder to make new folder at targetAccount with properties {name:"; Q; V escaped_name; Q; T "}"; NL;
        T "                return "; Q; T "SUCCESS: Created folder '"; Q; T " & name of newFolder & "; Q; T "' in "; Q; T " & name of targetAccount"; NL;
        T "            on error errMsg"; NL;
        T "                return "; Q; T "ERROR: "; Q; T " & errMsg"; NL;
        T "            end try"; NL;
        T "        end tell"; NL;
        T "        " ]
  else
    fstring
      [ NL;
        T "        tell application "; Q; T "Notes"; Q; NL;
        T "            try"; NL;
        T "                set targetAccount to first account"; NL;
        T "                set newFolder to make new folder at targetAccount with properties {name:"; Q; V escaped_name; Q; T "}"; NL;
        T "                return "; Q; T "SUCCESS: Created folder '"; Q; T " & name of newFolder & "; Q; T "' in "; Q; T " & name of targetAccount"; NL;
        T "            on error errMsg"; NL;
        T "                return "; Q; T "ERROR: "; Q; T " & errMsg"; NL;
        T "            end try"; NL;
        T "        end tell"; NL;
        T "        " ].

Definition append_to_note_script (title text : string)
  (account : option string) : string :=
  let escaped_title := escape_for_applescript title in
  let escaped_text := escape_for_applescript text in
  if truthy account then
    let escaped_account := escape_for_applescript (the account) in
    fstring
      [ NL;
        T "        tell application "; Q; T "Notes"; Q; NL;
        T "            try"; NL;
        T "                set targetAccount to account "; Q; V escaped_account; Q; NL;
        T "                set targetNote to first note of targetAccount whose name is "; Q; V escaped_title; Q; NL;
        T "                set currentBody to body of targetNote"; NL;
        T "                set body of targetNote to currentBody & "; Q; T "<br>"; Q; T " & "; Q; V escaped_text; Q; NL;
        T "                return "; Q; T "SUCCESS: Appended to note '"; V title; T "'"; Q; NL;
        T "            on error errMsg"; NL;
        T "                return "; Q; T "ERROR: "; Q; T " & errMsg"; NL;
        T "            end try"; NL;
        T "        end tell"; NL;
        T "        " ]
  else
    fstring
      [ NL;
        T "        tell application "; Q; T "Notes"; Q; NL;
        T "            repeat with a in accounts"; NL;
        T "                try"; NL;
        T "                    set targetNote to first note of a whose name is "; Q; V escaped_title; Q; NL;
        T "                    set currentBody to body of targetNote"; NL;
        T "                    set body of targetNote to currentBody & "; Q; T "<br>"; Q; T " & "; Q; V escaped_text; Q; NL;
        T "                    return "; Q; T "SUCCESS: Appended to note '"; V title; T "' in "; Q; T " & name of a"; NL;
        T "                end try"; NL;
        T "            end repeat"; NL;
        T "            return "; Q; T "ERROR: Note not found"; Q; NL;
        T "        end tell"; NL;
        T "        " ].

Definition get_note_count_script : string :=
  fstring
    [ NL;
      T "    tell application "; Q; T "Notes"; Q; NL;
      T "        set totalCount to 0"; NL;
      T "        set accountInfo to {}"; NL;
      T "        repeat with a in accounts"; NL;
      T "            set accountName to name of a"; NL;
      T "            set noteCount to count of notes of a"; NL;
      T "            set totalCount to totalCount + noteCount"; NL;
      T "            set end of accountInfo to accountName & "; Q; T ": "; Q; T " & noteCount & "; Q; T " notes"; Q; NL;
      T "        end repeat"; NL;
      T "        return (totalCount as string) & "; Q; T " total | "; Q; T " & (accountInfo as string)"; NL;
      T "    end tell"; NL;
      T "    " ].

(** *** The commands *)

Section Commands.

(** The host: what running [osascript] on a script does. *)
Variable osascript : string -> run_outcome.

Definition run_applescript (script : string) : bool * string :=
  match osascript script with
  | Completed returncode stdout stderr =>
      if (returncode =? 0)%Z then (true, strip stdout)
      else (false, strip stderr)
  | TimeoutExpired => (false, "AppleScript execution timed out")
  | OtherException message => (false, message)
  end.

Definition list_accounts : Py.dict :=
  let (success, output) := run_applescript list_accounts_script in
  if negb success then failure output
  else
    let accounts := stripped_lines output in
    [("success", Py.Bool true); ("accounts", Py.StrList accounts);
     ("count", count_of accounts)].

Definition list_folders : Py.dict :=
  let (success, output) := run_applescript list_folders_script in
  if negb success then failure output
  else
    let folders := stripped_lines output in
    [("success", Py.Bool true); ("folders", Py.StrList folders);
     ("count", count_of folders)].

Definition list_notes (folder account : option string) : Py.dict :=
  let (success, output) := run_applescript (list_notes_script folder account) in
  if negb success then failure output
  else if startswith output "ERROR:" then failure output
  else
    let notes := stripped_lines output in
    [("success", Py.Bool true); ("notes", Py.StrList notes);
     ("count", count_of notes)].

Definition create_note (title body : string) (folder account : option string)
  : Py.dict :=
  let (success, output) :=
    run_applescript (create_note_script title body folder account) in
  if negb success then failure output
  else if startswith output "ERROR:" then failure output
  else [("success", Py.Bool true); ("message", Py.Str output)].

Definition read_note (title : string) (folder account : option string)
  (plaintext : bool) : Py.dict :=
  let (success, output) :=
    run_applescript (read_note_script title folder account plaintext) in
  if negb success then failure output
  else if startswith output "ERROR:" then failure output
  else [("success", Py.Bool true); ("title", Py.Str title);
        ("content", Py.Str output);
        ("format", Py.Str (if plaintext then "plaintext" else "html"))].

Definition search_notes (query : string) : Py.dict :=
  let (success, output) := run_applescript (search_notes_script query) in
  if negb success then failure output
  else
    let notes := stripped_lines output in
    [("success", Py.Bool true); ("query", Py.Str query);
     ("notes", Py.StrList notes); ("count", count_of notes)].

Definition delete_note (title : string) (folder account : option string)
  : Py.dict :=
  let (success, output) :=
    run_applescript (delete_note_script title folder account) in
  if negb success then failure output
  else if startswith output "ERROR:" then failure output
  else [("success", Py.Bool true); ("message", Py.Str output)].

Definition create_folder (name : string) (account : option string) : Py.dict :=
  let (success, output) :=
    run_applescript (create_folder_script name account) in
  if negb success then failure output
  else if startswith output "ERROR:" then failure output
  else [("success", Py.Bool true); ("message", Py.Str output)].

Definition append_to_note (title text : string) (account : option string)
  : Py.dict :=
  let (success, output) :=
    run_applescript (append_to_note_script title text account) in
  if negb success then failure output
  else if startswith output "ERROR:" then failure output
  else [("success", Py.Bool true); ("message", Py.Str output)].

Definition get_note_count : Py.dict :=
  let (success, output) := run_applescript get_note_count_script in
  if negb success then failure output
  else [("success", Py.Bool true); ("info", Py.Str output)].

(** The parsed command line: [args.command] with its options. *)
Inductive command :=
| CmdListAccounts
| CmdListFolders
| CmdListNotes (folder account : option string)
| CmdCreate (title body : string) (folder account : option string)
| CmdRead (title : string) (folder account : option string) (plaintext : bool)
| CmdSearch (query : string)
| CmdDelete (title : string) (folder account : option string)
| CmdCreateFolder (name : string) (account : option string)
| CmdAppend (title text : string) (account : option string)
| CmdCount.

(** What the process writes to standard output. *)
Inductive printed :=
| JsonDocument (d : Py.dict)
| HelpText.

Record process := { stdout : list printed; exit_code : Z }.

Definition dispatch (c : command) : Py.dict :=
  match c with
  | CmdListAccounts => list_accounts
  | CmdListFolders => list_folders
  | CmdListNotes folder account => list_notes folder account
  | CmdCreate title body folder account => create_note title body folder account
  | CmdRead title folder account plaintext =>
      read_note title folder account plaintext
  | CmdSearch query => search_notes query
  | CmdDelete title folder account => delete_note title folder account
  | CmdCreateFolder name account => create_folder name account
  | CmdAppend title text account => append_to_note title text account
  | CmdCount => get_note_count
  end.

(** [main], after [parser.parse_args()] has accepted the command line;
    [None] is a command line without a sub-command.  Standard output is
    taken to encode every character of the document, as a UTF-8 terminal
    does. *)
Definition main (args_command : option command) : process :=
  match args_command with
  | None => {| stdout := [HelpText]; exit_code := 1 |}
  | Some c =>
      let result := dispatch c in
      {| stdout := [JsonDocument result];
         exit_code :=
           if negb (Py.truth (Py.get result "success" (Py.Bool false)))
           then 1 else 0 |}
  end.

End Commands.

End Notes.

(** ** The Notes application, as the scripts address it

    The scripts are AppleScript programs; what follows is the part of the
    host language and of the Notes scripting dictionary they rely on. *)

Module AppleScript.

Import PyStr.

(** *** String literals

    A literal opens and closes with a double quote; inside it a backslash
    escapes the character that follows. *)

Definition unescape (c : ascii) : option ascii :=
  if Ascii.eqb c DQUOTE then Some DQUOTE
  else if Ascii.eqb c BACKSLASH then Some BACKSLASH
  else if Ascii.eqb c "n" then Some LF
  else if Ascii.eqb c "r" then Some "013"%char
  else if Ascii.eqb c "t" then Some "009"%char
  else None.

(** Reads the body of a literal whose opening quote has been consumed:
    the value of the literal and the text after its closing quote. *)
Fixpoint read_literal (s : string) : option (string * string) :=
  match s with
  | EmptyString => None
  | String c r =>
      if Ascii.eqb c DQUOTE then Some (EmptyString, r)
      else if Ascii.eqb c BACKSLASH then
        match r with
        | EmptyString => None
        | String d r' =>
            match unescape d, read_literal r' with
            | Some d', Some (v, rest) => Some (String d' v, rest)
            | _, _ => None
            end
        end
      else
        match read_literal r with
        | Some (v, rest) => Some (String c v, rest)
        | None => None
        end
  end.

(** The lexical structure of a script: characters of code, and string
    literals with their values. *)
Inductive token :=
| Code (c : ascii)
| Literal (value : string).

Inductive lex_state :=
| InCode
| InLiteral (acc : string)
| AfterBackslash (acc : string)
| Malformed.

Definition snoc (s : string) (c : ascii) : string :=
  (s ++ String c EmptyString)%string.

Definition lex_step (st : lex_state) (c : ascii) : list token * lex_state :=
  match st with
  | InCode =>
      if Ascii.eqb c DQUOTE then ([], InLiteral EmptyString)
      else ([Code c], InCode)
  | InLiteral acc =>
      if Ascii.eqb c DQUOTE then ([Literal acc], InCode)
      else if Ascii.eqb c BACKSLASH then ([], AfterBackslash acc)
      else ([], InLiteral (snoc acc c))
  | AfterBackslash acc =>
      match unescape c with
      | Some d => ([], InLiteral (snoc acc d))
      | None => ([], Malformed)
      end
  | Malformed => ([], Malformed)
  end.

Fixpoint lex (st : lex_state) (s : string) : list token * lex_state :=
  match s with
  | EmptyString => ([], st)
  | String c r =>
      let (t1, st1) := lex_step st c in
      let (t2, st2) := lex st1 r in
      (t1 ++ t2, st2)
  end.

(** A script is lexically well formed when it ends outside any literal. *)
Definition tokens (script : string) : option (list token) :=
  match lex InCode script with
  | (toks, InCode) => Some toks
  | _ => None
  end.

(** The code of a script with every literal reduced to a bare quote. *)
Fixpoint code_of (toks : list token) : string :=
  match toks with
  | [] => EmptyString
  | Code c :: r => String c (code_of r)
  | Literal _ :: r => String DQUOTE (code_of r)
  end.

Fixpoint literals_of (toks : list token) : list string :=
  match toks with
  | [] => []
  | Code _ :: r => literals_of r
  | Literal v :: r => v :: literals_of r
  end.

(** *** The store behind [tell application "Notes"] *)

Record note := { note_name : string; note_body : string }.

Record account := { account_name : string; account_notes : list note }.

(** What a script asks of a note it has found. *)
Inductive request :=
| GetBody
| GetPlaintext
| DeleteNote
| SetBody.

(** [osascript] prints the value a script returns, followed by a line
    feed, and exits with code 0; [subprocess.run] reads it in text
    mode. *)
Definition returns (value : string) : Notes.run_outcome :=
  Notes.Completed 0
    (universal_newlines (value ++ String LF EmptyString)%string) EmptyString.

Section Scripts.

(** AppleScript's [is] on two texts, the [plaintext] of a note as the
    application derives it from the body, and whether the application
    answers a request on a note of an account with an error. *)
Variable name_is : string -> string -> bool.
Variable plaintext_of : string -> string.
Variable refuses : request -> account -> note -> bool.

(** [first note of a whose name is t]; an error ([None]) when there is
    none. *)
Definition first_note_whose_name_is (a : account) (t : string) : option note :=
  find (fun n => name_is (note_name n) t) (account_notes a).

(** What the body of a [try] gets hold of in one account: the first
    note named [t], unless there is none or one of the requests made on
    it inside the [try] is answered with an error; in both cases the
    [try] ends without effect and the loop goes on. *)
Definition target (requests : list request) (a : account) (t : string)
  : option note :=
  match first_note_whose_name_is a t with
  | Some n => if existsb (fun r => refuses r a n) requests then None else Some n
  | None => None
  end.

(** Some account has a note named [t]. *)
Definition found (t : string) (accounts : list account) : bool :=
  existsb
    (fun a => existsb (fun n => name_is (note_name n) t) (account_notes a))
    accounts.


(** [delete targetNote] for the first note of the list that matches. *)
Fixpoint delete_first (t : string) (notes : list note) : list note :=
  match notes with
  | [] => []
  | n :: r => if name_is (note_name n) t then r else n :: delete_first t r
  end.

(** [set body of targetNote to b] for the first note that matches. *)
Fixpoint set_body_first (t : string) (b : string -> string)
  (notes : list note) : list note :=
  match notes with
  | [] => []
  | n :: r =>
      if name_is (note_name n) t
      then {| note_name := note_name n; note_body := b (note_body n) |} :: r
      else n :: set_body_first t b r
  end.

Definition content (plaintext : bool) (n : note) : string :=
  if plaintext then plaintext_of (note_body n) else note_body n.

Definition content_request (plaintext : bool) : request :=
  if plaintext then GetPlaintext else GetBody.

(** The loop of [read_note] without an account (source lines 302-312):
    [repeat with a in accounts / try / set targetNote to first note of a
    whose name is t / return body of targetNote / end try / end repeat /
    return missing].  [t] and [missing] are the values of the two
    literals. *)
Fixpoint read_unscoped (accounts : list account) (t : string)
  (plaintext : bool) (missing : string) : string :=
  match accounts with
  | [] => missing
  | a :: rest =>
      match target [content_request plaintext] a t with
      | Some n => content plaintext n
      | None => read_unscoped rest t plaintext missing
      end
  end.

(** The loop of [delete_note] without an account (source lines 382-392):
    inside the [try], the lookup, [delete targetNote] and the return of
    [message & name of a]. *)
Fixpoint delete_unscoped (accounts : list account) (t message missing : string)
  : list account * string :=
  match accounts with
  | [] => ([], missing)
  | a :: rest =>
      match target [DeleteNote] a t with
      | Some _ =>
          ({| account_name := account_name a;
              account_notes := delete_first t (account_notes a) |} :: rest,
           (message ++ account_name a)%string)
      | None =>
          let (rest', out) := delete_unscoped rest t message missing in
          (a :: rest', out)
      end
  end.

(** The loop of [append_to_note] without an account (source lines
    468-479): inside the [try], the lookup, [set currentBody to body of
    targetNote], [set body of targetNote to currentBody & separator &
    text] and the return of [message & name of a]. *)
Fixpoint append_unscoped (accounts : list account)
  (t separator text message missing : string) : list account * string :=
  match accounts with
  | [] => ([], missing)
  | a :: rest =>
      match target [GetBody; SetBody] a t with
      | Some _ =>
          ({| account_name := account_name a;
              account_notes :=
                set_body_first t (fun b => (b ++ separator ++ text)%string)
                  (account_notes a) |} :: rest,
           (message ++ account_name a)%string)
      | None =>
          let (rest', out) :=
            append_unscoped rest t separator text message missing in
          (a :: rest', out)
      end
  end.

(** *** Running a script

    [osascript] compiles the script first.  A script that is not
    lexically well formed does not compile: nothing runs, the exit code
    is 1 and the error text goes to standard error.  The three unscoped
    programs of notes_manager.py are recognised by their code, and run
    with the values of their literals.  What the host does with any
    other script is left open. *)

(** The error text for a script that does not compile, and the host's
    answer to the scripts not described here. *)
Variable syntax_error : string -> string.
Variable other : list account -> string -> list account * Notes.run_outcome.

Definition program (script : string) : string :=
  match tokens script with
  | Some toks => code_of toks
  | None => EmptyString
  end.

Definition read_program (plaintext : bool) : string :=
  program (Notes.read_note_script EmptyString None None plaintext).

Definition delete_program : string :=
  program (Notes.delete_note_script EmptyString None None).

Definition append_program : string :=
  program (Notes.append_to_note_script EmptyString EmptyString None).

Definition osascript (accounts : list account) (script : string)
  : list account * Notes.run_outcome :=
  match tokens script with
  | None => (accounts, Notes.Completed 1 EmptyString (syntax_error script))
  | Some toks =>
      let code := code_of toks in
      match literals_of toks with
      | [app; t; missing] =>
          if String.eqb app "Notes" && String.eqb code (read_program false)
          then (accounts, returns (read_unscoped accounts t false missing))
          else if String.eqb app "Notes" && String.eqb code (read_program true)
          then (accounts, returns (read_unscoped accounts t true missing))
          else other accounts script
      | [app; t; message; missing] =>
          if String.eqb app "Notes" && String.eqb code delete_program
          then
            let (accounts', value) :=
              delete_unscoped accounts t message missing in
            (accounts', returns value)
          else other accounts script
      | [app; t; separator; text; message; missing] =>
          if String.eqb app "Notes" && String.eqb code append_program
          then
            let (accounts', value) :=
              append_unscoped accounts t separator text message missing in
            (accounts', returns value)
          else other accounts script
      | _ => other accounts script
      end
  end.



End Scripts.

End AppleScript.

(** ** calendar_utils.py *)

Module Calendar.

Import PyStr.

(** *** EventKit and Foundation, as far as the manager uses them *)

Inductive EKAuthorizationStatus :=
| EKAuthorizationStatusNotDetermined
| EKAuthorizationStatusRestricted
| EKAuthorizationStatusDenied
| EKAuthorizationStatusAuthorized.

Inductive EKEntityType :=
| EKEntityTypeEvent
| EKEntityTypeReminder.

Inductive EKSpan :=
| EKSpanThisEvent
| EKSpanFutureEvents.

Definition status_eqb (a b : EKAuthorizationStatus) : bool :=
  match a, b with
  | EKAuthorizationStatusNotDetermined, EKAuthorizationStatusNotDetermined
  | EKAuthorizationStatusRestricted, EKAuthorizationStatusRestricted
  | EKAuthorizationStatusDenied, EKAuthorizationStatusDenied
  | EKAuthorizationStatusAuthorized, EKAuthorizationStatusAuthorized => true
  | _, _ => false
  end.

(** What the host does with the completion handler passed to
    [requestAccessToEntityType_completion_]: call it after [delay] time
    units with [success], or never call it. *)
Inductive completion :=
| CompletionAfter (delay : Z) (success : bool)
| NoCompletion.

(** The authorization side of the host: the status it reports per entity
    type, what it will do with a grant request, a clock, and the grant
    requests received so far (most recent first). *)
Record access_host := {
  authorizationStatusForEntityType_ : EKEntityType -> EKAuthorizationStatus;
  grant_behaviour : EKEntityType -> completion;
  clock : Z;
  grant_requests : list EKEntityType
}.

Definition entity_eqb (a b : EKEntityType) : bool :=
  match a, b with
  | EKEntityTypeEvent, EKEntityTypeEvent
  | EKEntityTypeReminder, EKEntityTypeReminder => true
  | _, _ => false
  end.

(** [store.requestAccessToEntityType_completion_(entity, callback)]: the
    request is recorded and the call returns at once. *)
Definition requestAccessToEntityType_completion_ (h : access_host)
  (entity : EKEntityType) : access_host :=
  {| authorizationStatusForEntityType_ := authorizationStatusForEntityType_ h;
     grant_behaviour := grant_behaviour h;
     clock := clock h;
     grant_requests := entity :: grant_requests h |}.

(** [event.wait(timeout)] on a [threading.Event] that the completion
    handler sets: the time that passes, and the [success] the handler
    stored if it ran before the wait gave up. *)
Definition event_wait (c : completion) (timeout : Z) : Z * option bool :=
  match c with
  | CompletionAfter delay success =>
      if (delay <? timeout)%Z then (Z.max 0 delay, Some success)
      else (timeout, None)
  | NoCompletion => (timeout, None)
  end.

(** The host after the waiting thread resumes: the clock has advanced,
    and a handler that ran has settled the status. *)
Definition after_wait (h : access_host) (entity : EKEntityType)
  (elapsed : Z) (fired : option bool) : access_host :=
  {| authorizationStatusForEntityType_ :=
       fun e =>
         match fired with
         | Some success =>
             if entity_eqb e entity then
               if success then EKAuthorizationStatusAuthorized
               else EKAuthorizationStatusDenied
             else authorizationStatusForEntityType_ h e
         | None => authorizationStatusForEntityType_ h e
         end;
     grant_behaviour := grant_behaviour h;
     clock := (clock h + elapsed)%Z;
     grant_requests := grant_requests h |}.

(** The two flags of a [CalendarManager]. *)
Record manager := {
  _authorized_events : bool;
  _authorized_reminders : bool
}.

(** [request_event_access] *)
Definition request_event_access (self : manager) (h : access_host)
  : manager * access_host * bool :=
  let status := authorizationStatusForEntityType_ h EKEntityTypeEvent in
  if status_eqb status EKAuthorizationStatusAuthorized then
    ({| _authorized_events := true;
        _authorized_reminders := _authorized_reminders self |}, h, true)
  else if status_eqb status EKAuthorizationStatusNotDetermined then
    let granted := false in
    let h := requestAccessToEntityType_completion_ h EKEntityTypeEvent in
    let (elapsed, fired) := event_wait (grant_behaviour h EKEntityTypeEvent) 30 in
    let granted :=
      match fired with Some success => success | None => granted end in
    ({| _authorized_events := granted;
        _authorized_reminders := _authorized_reminders self |},
     after_wait h EKEntityTypeEvent elapsed fired, granted)
  else (self, h, false).

(** [request_reminder_access] *)
Definition request_reminder_access (self : manager) (h : access_host)
  : manager * access_host * bool :=
  let status := authorizationStatusForEntityType_ h EKEntityTypeReminder in
  if status_eqb status EKAuthorizationStatusAuthorized then
    ({| _authorized_events := _authorized_events self;
        _authorized_reminders := true |}, h, true)
  else if status_eqb status EKAuthorizationStatusNotDetermined then
    let granted := false in
    let h := requestAccessToEntityType_completion_ h EKEntityTypeReminder in
    let (elapsed, fired) :=
      event_wait (grant_behaviour h EKEntityTypeReminder) 30 in
    let granted :=
      match fired with Some success => success | None => granted end in
    ({| _authorized_events := _authorized_events self;
        _authorized_reminders := granted |},
     after_wait h EKEntityTypeReminder elapsed fired, granted)
  else (self, h, false).

Record EKCalendar := {
  title : string;
  calendarIdentifier : string
}.

(** Dates on both sides of the bridge.  [datetime.timestamp] and
    [datetime.fromtimestamp] go through the local time zone of the host
    and a floating-point number of seconds; [NSDate] keeps its own
    floating-point interval.  None of this is code of the repository. *)
Class Foundation := {
  datetime : Type;
  float : Type;
  NSDate : Type;
  timestamp : datetime -> float;
  fromtimestamp : float -> datetime;
  isoformat : datetime -> string;
  dateWithTimeIntervalSince1970_ : float -> NSDate;
  timeIntervalSince1970 : NSDate -> float
}.

Section Manager.

Context {F : Foundation}.

Definition _nsdate_from_datetime (dt : datetime) : NSDate :=
  dateWithTimeIntervalSince1970_ (timestamp dt).

Definition _datetime_from_nsdate (nsdate : NSDate) : datetime :=
  fromtimestamp (timeIntervalSince1970 nsdate).

Record EKEvent := {
  eventIdentifier : option string;
  event_title : option string;
  startDate : option NSDate;
  endDate : option NSDate;
  isAllDay : bool;
  location : option string;
  notes : option string;
  URL : option string;
  calendar : option EKCalendar
}.

(** [EKEvent.eventWithEventStore_(store)] *)
Definition eventWithEventStore_ : EKEvent :=
  {| eventIdentifier := None; event_title := None; startDate := None;
     endDate := None; isAllDay := false; location := None; notes := None;
     URL := None; calendar := None |}.

(** The event and reminder store.  Saving and removing report
    [(success, error)], with [error] already rendered as text. *)
Class EventKit := {
  EKEventStore : Type;
  calendarsForEntityType_ : EKEventStore -> EKEntityType -> list EKCalendar;
  defaultCalendarForNewEvents : EKEventStore -> option EKCalendar;
  eventWithIdentifier_ : EKEventStore -> string -> option EKEvent;
  saveEvent_span_error_ :
    EKEventStore -> EKEvent -> EKSpan -> EKEventStore * EKEvent * (bool * string);
  removeEvent_span_error_ :
    EKEventStore -> EKEvent -> EKSpan -> EKEventStore * (bool * string);
  (** [eventsMatchingPredicate_] on the predicate built from a start
      date, an end date and the calendars ([None] for Python's [None]);
      the result may be [nil]. *)
  eventsMatching :
    EKEventStore -> NSDate -> NSDate -> option (list EKCalendar) ->
    option (list EKEvent)
}.

Context {E : EventKit}.

(** [get_calendar_by_name]: the first calendar of the entity type whose
    title equals [name]. *)
Definition get_calendar_by_name (store : EKEventStore) (name : string)
  (entity_type : string) : option EKCalendar :=
  let ek_type :=
    if String.eqb entity_type "event" then EKEntityTypeEvent
    else EKEntityTypeReminder in
  let calendars := calendarsForEntityType_ store ek_type in
  find (fun cal => String.eqb (title cal) name) calendars.

(** [get_reminder_list_by_name] *)
Definition get_reminder_list_by_name (store : EKEventStore) (name : string)
  : option EKCalendar :=
  let calendars := calendarsForEntityType_ store EKEntityTypeReminder in
  find (fun cal => String.eqb (title cal) name) calendars.

Definition opt_str (o : option string) : Py.value :=
  match o with Some s => Py.Str s | None => Py.NoneValue end.

(** [create_event] *)
Definition create_event (store : EKEventStore) (title_ : string)
  (start end_ : datetime) (calendar_name location_ notes_ : option string)
  (all_day : bool) (url : option string)
  : EKEventStore * Py.result Py.dict :=
  let event := eventWithEventStore_ in
  let event :=
    {| eventIdentifier := eventIdentifier event;
       event_title := Some title_;
       startDate := Some (_nsdate_from_datetime start);
       endDate := Some (_nsdate_from_datetime end_);
       isAllDay := all_day;
       location := if truthy location_ then location_ else location event;
       notes := if truthy notes_ then notes_ else notes event;
       URL := if truthy url then url else URL event;
       calendar := calendar event |} in
  let with_calendar (c : option EKCalendar) : EKEvent :=
    {| eventIdentifier := eventIdentifier event;
       event_title := event_title event;
       startDate := startDate event;
       endDate := endDate event;
       isAllDay := isAllDay event;
       location := location event;
       notes := notes event;
       URL := URL event;
       calendar := c |} in
  let save (event : EKEvent) : EKEventStore * Py.result Py.dict :=
    let '(store', event, (success, error)) :=
      saveEvent_span_error_ store event EKSpanThisEvent in
    if negb success then
      (store', Py.Raise (Py.RuntimeError ("Failed to save event: " ++ error)))
    else
      match calendar event with
      | None =>
          (store',
           Py.Raise (Py.AttributeError
                       "'NoneType' object has no attribute 'title'"))
      | Some cal =>
          (store',
           Py.Return
             [("event_id", opt_str (eventIdentifier event));
              ("title", Py.Str title_);
              ("start", Py.Str (isoformat start));
              ("end", Py.Str (isoformat end_));
              ("calendar", Py.Str (title cal))])
      end in
  if truthy calendar_name then
    match get_calendar_by_name store (the calendar_name) "event" with
    | None =>
        (store,
         Py.Raise (Py.ValueError
                     ("Calendar '" ++ the calendar_name ++ "' not found")))
    | Some cal => save (with_calendar (Some cal))
    end
  else save (with_calendar (defaultCalendarForNewEvents store)).

Definition missing_attribute (name : string) : Py.exn :=
  Py.AttributeError ("'NoneType' object has no attribute '" ++ name ++ "'").

(** One entry of the list [get_events] returns.  The entries are
    evaluated in the order of the source: an event without a start or
    end date ends the call in [_datetime_from_nsdate], one without a
    calendar in [e.calendar().title()]. *)
Definition event_dict (e : EKEvent) : Py.result Py.dict :=
  match startDate e, endDate e, calendar e with
  | None, _, _ | Some _, None, _ =>
      Py.Raise (missing_attribute "timeIntervalSince1970")
  | Some _, Some _, None => Py.Raise (missing_attribute "title")
  | Some start, Some end_, Some cal =>
      Py.Return
        [("event_id", opt_str (eventIdentifier e));
         ("title", opt_str (event_title e));
         ("start", Py.Str (isoformat (_datetime_from_nsdate start)));
         ("end", Py.Str (isoformat (_datetime_from_nsdate end_)));
         ("location", opt_str (location e));
         ("notes", opt_str (notes e));
         ("all_day", Py.Bool (isAllDay e));
         ("calendar", Py.Str (title cal));
         ("url", opt_str (URL e))]
  end.

(** The list comprehension of [get_events]: one entry per event, in
    order; the first event that raises ends it. *)
Fixpoint event_dicts (l : list EKEvent) : Py.result (list Py.dict) :=
  match l with
  | [] => Py.Return []
  | e :: rest =>
      match event_dict e with
      | Py.Raise ex => Py.Raise ex
      | Py.Return d =>
          match event_dicts rest with
          | Py.Raise ex => Py.Raise ex
          | Py.Return result => Py.Return (d :: result)
          end
      end
  end.

(** The calendars [get_events] hands to the predicate: [None] when no
    names are given, otherwise the calendars found for the names, in the
    order of the names, with the names that match nothing dropped. *)
Definition get_events_calendars (store : EKEventStore)
  (calendar_names : option (list string)) : option (list EKCalendar) :=
  match calendar_names with
  | Some ((_ :: _) as names) =>
      let calendars :=
        map (fun name => get_calendar_by_name store name "event") names in
      Some (flat_map (fun c => match c with Some cal => [cal] | None => [] end)
              calendars)
  | _ => None
  end.

(** [get_events] *)
Definition get_events (store : EKEventStore) (start end_ : datetime)
  (calendar_names : option (list string)) : Py.result (list Py.dict) :=
  let calendars := get_events_calendars store calendar_names in
  let events :=
    eventsMatching store (_nsdate_from_datetime start)
      (_nsdate_from_datetime end_) calendars in
  event_dicts (match events with Some l => l | None => [] end).

(** [delete_event] *)
Definition delete_event (store : EKEventStore) (event_id : string)
  (future_events : bool) : EKEventStore * Py.result bool :=
  match eventWithIdentifier_ store event_id with
  | None =>
      (store, Py.Raise (Py.ValueError ("Event '" ++ event_id ++ "' not found")))
  | Some event =>
      let span := if future_events then EKSpanFutureEvents else EKSpanThisEvent in
      let '(store', (success, error)) :=
        removeEvent_span_error_ store event span in
      if negb success then
        (store',
         Py.Raise (Py.RuntimeError ("Failed to delete event: " ++ error)))
      else (store', Py.Return true)
  end.

(** *** The command line, for [delete-event] *)

Inductive stderr_line :=
| Message (text : string)
| Traceback (e : Py.exn).

(** What the process leaves behind: the lines printed on each stream, the
    exit code, and the exception that ended the program, if any. *)
Record process := {
  stdout : list string;
  stderr : list stderr_line;
  exit_code : Z;
  uncaught : option Py.exn
}.

(** The [__main__] block when [args.command] is ["delete-event"]: a
    fresh manager asks for event access, then the handler runs. *)
Definition main_delete_event (h : access_host) (store : EKEventStore)
  (event_id : string) (future : bool)
  : access_host * EKEventStore * process :=
  let mgr := {| _authorized_events := false; _authorized_reminders := false |} in
  let '(mgr, h, granted) := request_event_access mgr h in
  if negb granted then
    (h, store,
     {| stdout := [];
        stderr := [Message "Error: Calendar access not granted"];
        exit_code := 1;
        uncaught := None |})
  else
    match delete_event store event_id future with
    | (store, Py.Raise e) =>
        (h, store,
         {| stdout := []; stderr := [Traceback e]; exit_code := 1;
            uncaught := Some e |})
    | (store, Py.Return _) =>
        (h, store,
         {| stdout := [("Deleted event: " ++ event_id)%string]; stderr := [];
            exit_code := 0; uncaught := None |})
    end.

End Manager.

End Calendar.

(** ** Concrete hosts, for the examples *)

Module Fixtures.

Import PyStr Calendar.

(** Dates as whole seconds, with a host in UTC. *)
Definition seconds : Foundation :=
  {| datetime := Z; float := Z; NSDate := Z;
     timestamp := fun dt => dt;
     fromtimestamp := fun t => t;
     isoformat := fun _ => "datetime";
     dateWithTimeIntervalSince1970_ := fun t => t;
     timeIntervalSince1970 := fun d => d |}.

Record simple_store := {
  event_calendars : list EKCalendar;
  reminder_calendars : list EKCalendar;
  events : list (@EKEvent seconds)
}.

Definition has_id (id : string) (e : @EKEvent seconds) : bool :=
  match eventIdentifier e with
  | Some i => String.eqb i id
  | None => false
  end.

Definition in_calendars (cals : list EKCalendar) (e : @EKEvent seconds) : bool :=
  match calendar e with
  | Some c =>
      existsb (fun c' => String.eqb (calendarIdentifier c') (calendarIdentifier c))
        cals
  | None => false
  end.

(** A store in which saving and removing always succeed, and which
    answers a query for an empty list of calendars with no events. *)
Definition simple : @EventKit seconds :=
  {| EKEventStore := simple_store;
     calendarsForEntityType_ := fun st e =>
       match e with
       | EKEntityTypeEvent => event_calendars st
       | EKEntityTypeReminder => reminder_calendars st
       end;
     defaultCalendarForNewEvents := fun st => hd_error (event_calendars st);
     eventWithIdentifier_ := fun st id => find (has_id id) (events st);
     saveEvent_span_error_ := fun st e _ =>
       ({| event_calendars := event_calendars st;
           reminder_calendars := reminder_calendars st;
           events := e :: events st |}, e, (true, EmptyString));
     removeEvent_span_error_ := fun st e _ =>
       (st, (true, EmptyString));
     eventsMatching := fun st _ _ cals =>
       match cals with
       | None => Some (events st)
       | Some l => Some (filter (in_calendars l) (events st))
       end |}.

Definition work : EKCalendar :=
  {| title := "Work"; calendarIdentifier := "cal-1" |}.

Definition standup : @EKEvent seconds :=
  @Build_EKEvent seconds (Some "ev-1") (Some "Stand-up") (Some 60%Z)
    (Some 120%Z) false None None None (Some work).

Definition office : simple_store :=
  {| event_calendars := [work]; reminder_calendars := [];
     events := [standup] |}.

(** A host that has granted event access, and one that has been asked
    for nothing yet and will never call back. *)
Definition granted_host : access_host :=
  {| authorizationStatusForEntityType_ := fun _ => EKAuthorizationStatusAuthorized;
     grant_behaviour := fun _ => NoCompletion;
     clock := 0;
     grant_requests := [] |}.

Definition silent_host : access_host :=
  {| authorizationStatusForEntityType_ :=
       fun _ => EKAuthorizationStatusNotDetermined;
     grant_behaviour := fun _ => NoCompletion;
     clock := 100;
     grant_requests := [] |}.

Definition fresh_manager : manager :=
  {| _authorized_events := false; _authorized_reminders := false |}.






End Fixtures.

(** ** The decoder of the textual store, in the words of the specification *)

Module Spec.

Import PyStr.

(** Split the raw text on line feed, trim whitespace from each line,
    discard the empty lines; each remaining line is one record. *)
Definition records (raw : string) : list string :=
  filter nonempty (map strip (split LF raw)).

End Spec.

(** ** Titles used in the examples *)

Module Titles.

Import PyStr.

Definition quote : string := String DQUOTE EmptyString.

(** A title with one double quote in it. *)
Definition inch : string := ("3" ++ quote ++ " pipe")%string.

(** A title that closes the literal around it and carries a command. *)
Definition payload : string :=
  ("x" ++ quote ++ " & (do shell script " ++ quote ++ "id" ++ quote
   ++ ") & " ++ quote)%string.

End Titles.

(** ** Templates with their escaped fields marked

    The scripts are f-strings; to reason about all of them at once a
    template is read back as a list of pieces in which a field that went
    through [escape_for_applescript] is kept apart from its escaping. *)

Module Template.

Import PyStr Notes AppleScript.

Inductive piece :=
| Text (text : string)
| Quote
| Newline
| Escaped (field : string).

Definition part_of (p : piece) : part :=
  match p with
  | Text s => T s
  | Quote => Q
  | Newline => NL
  | Escaped x => V (escape_for_applescript x)
  end.

(** What [escape_for_applescript] makes of one character. *)
Definition escape_char (c : ascii) : string :=
  if Ascii.eqb c BACKSLASH then String BACKSLASH (String BACKSLASH EmptyString)
  else if Ascii.eqb c DQUOTE then String BACKSLASH (String DQUOTE EmptyString)
  else String c EmptyString.

(** Lexing a template piece by piece; an escaped field is legitimate
    only inside a literal, to whose value it adds the field as it is. *)
Fixpoint lex_pieces (st : lex_state) (l : list piece)
  : option (list token * lex_state) :=
  match l with
  | [] => Some ([], st)
  | Escaped x :: r =>
      match st with
      | InLiteral acc => lex_pieces (InLiteral (acc ++ x)%string) r
      | _ => None
      end
  | p :: r =>
      let (t1, st1) := lex st (part_text (part_of p)) in
      match lex_pieces st1 r with
      | Some (t2, st2) => Some (t1 ++ t2, st2)
      | None => None
      end
  end.

(** The code of a script: its text with every literal reduced to a bare
    quote, or nothing when the script ends inside a literal. *)
Definition code (script : string) : option string :=
  option_map code_of (tokens script).

Definition literals (script : string) : option (list string) :=
  option_map literals_of (tokens script).

End Template.

(** ** Measures on texts *)

Module Measure.

Import PyStr AppleScript.

(** The text holds neither a double quote nor a backslash. *)
Fixpoint plain (s : string) : bool :=
  match s with
  | EmptyString => true
  | String c r =>
      negb (Ascii.eqb c DQUOTE) && negb (Ascii.eqb c BACKSLASH) && plain r
  end.

(** How many double quotes and backslashes the text holds. *)
Fixpoint specials (s : string) : nat :=
  match s with
  | EmptyString => 0
  | String c r =>
      (if Ascii.eqb c DQUOTE || Ascii.eqb c BACKSLASH then 1 else 0)
      + specials r
  end.

(** The text is made of white space only. *)
Fixpoint all_space (s : string) : bool :=
  match s with
  | EmptyString => true
  | String c r => isspace c && all_space r
  end.

Fixpoint has_char (c : ascii) (s : string) : bool :=
  match s with
  | EmptyString => false
  | String a r => Ascii.eqb a c || has_char c r
  end.


End Measure.

(** ** More hosts, for the examples *)

Module Hosts.

Import Calendar.

(** A host that has been asked for nothing yet and answers a request
    for event access after 5 time units, granting it. *)
Definition prompt_host : access_host :=
  {| authorizationStatusForEntityType_ :=
       fun _ => EKAuthorizationStatusNotDetermined;
     grant_behaviour := fun _ => CompletionAfter 5 true;
     clock := 100;
     grant_requests := [] |}.

(** A host that answers a request for access only after 45 time
    units. *)
Definition late_host : access_host :=
  {| authorizationStatusForEntityType_ :=
       fun _ => EKAuthorizationStatusNotDetermined;
     grant_behaviour := fun _ => CompletionAfter 45 true;
     clock := 100;
     grant_requests := [] |}.

(** The statuses from which the host will not move: restricted and
    denied. *)
Definition settled_refusal (s : EKAuthorizationStatus) : bool :=
  match s with
  | EKAuthorizationStatusRestricted | EKAuthorizationStatusDenied => true
  | _ => false
  end.

(** A host on which access has been refused. *)
Definition refusing_host : access_host :=
  {| authorizationStatusForEntityType_ := fun _ => EKAuthorizationStatusDenied;
     grant_behaviour := fun _ => NoCompletion;
     clock := 0;
     grant_requests := [] |}.

End Hosts.

(** ** Optional arguments as Python tests them *)

Module Optional.

(** An [Optional[str]] as [if value:] sees it: the empty string counts
    as absent. *)
Definition given (o : option string) : option string :=
  if PyStr.truthy o then o else None.

Definition is_some {A : Type} (o : option A) : bool :=
  match o with Some _ => true | None => false end.


End Optional.

(** ** The script and the sentinel check of each notes command *)

Module Envelope.

Import Notes.

(** The script a command hands to [run_applescript]. *)
Definition script_of (c : command) : string :=
  match c with
  | CmdListAccounts => list_accounts_script
  | CmdListFolders => list_folders_script
  | CmdListNotes folder account => list_notes_script folder account
  | CmdCreate title body folder account =>
      create_note_script title body folder account
  | CmdRead title folder account plaintext =>
      read_note_script title folder account plaintext
  | CmdSearch query => search_notes_script query
  | CmdDelete title folder account => delete_note_script title folder account
  | CmdCreateFolder name account => create_folder_script name account
  | CmdAppend title text account => append_to_note_script title text account
  | CmdCount => get_note_count_script
  end.

(** The commands whose handler tests the output for a leading
    [ERROR:]. *)
Definition checks_error_prefix (c : command) : bool :=
  match c with
  | CmdListAccounts | CmdListFolders | CmdSearch _ | CmdCount => false
  | _ => true
  end.

(** A run counts as failed when the runner says so, or when the handler
    finds the sentinel. *)
Definition failed (c : command) (success : bool) (output : string) : bool :=
  negb success
  || (checks_error_prefix c && PyStr.startswith output "ERROR:").

End Envelope.

(** ** Hosts for the Notes examples *)

Module NotesHosts.

Import AppleScript.



Definition syntax_error (script : string) : string :=
  "syntax error: Expected end of line but found unknown token. (-2741)".



End NotesHosts.

(** ** Python's naive and aware datetimes, on a host with one UTC offset

    [datetime.timestamp] reads a datetime without offset as local time
    and one with an offset as the instant it names;
    [datetime.fromtimestamp] without a time zone gives the local time,
    without offset.  [NSDate] counts seconds from 2001-01-01T00:00:00Z.
    At minute granularity all the numbers are whole seconds, which
    binary64 holds exactly, so they are integers here.  The host's zone
    keeps one offset from UTC. *)

Module PythonDates.

Import Calendar.




Section Zone.

(** The offset of the host's zone from UTC, in seconds. *)
Variable local_offset : Z.




End Zone.


End PythonDates.

(** ** calendar_utils.py: the rest of the manager *)

Module Manager.

Import PyStr Calendar.

(** What the listings print of a calendar besides its title and
    identifier: [cal.type()], [cal.allowsContentModifications()] and
    [str(cal.color())] when there is a color. *)
Class CalendarDetails := {
  calendar_type : EKCalendar -> Z;
  allowsContentModifications : EKCalendar -> bool;
  color : EKCalendar -> option string
}.

(** [NSDateComponents], and the two conversions of
    [NSCalendar.currentCalendar()] the manager uses:
    [components_fromDate_] for year, month, day, hour and minute, and
    [dateFromComponents_]. *)
Class DateComponents {F : Foundation} := {
  NSDateComponents : Type;
  components_fromDate_ : NSDate -> NSDateComponents;
  dateFromComponents_ : NSDateComponents -> option NSDate
}.

Section Methods.

Context {F : Foundation} {E : EventKit} {D : CalendarDetails}
  {C : DateComponents}.

(** [list_calendars] *)
Definition list_calendars (store : EKEventStore) (entity_type : string)
  : list Py.dict :=
  let ek_type :=
    if String.eqb entity_type "event" then EKEntityTypeEvent
    else EKEntityTypeReminder in
  let calendars := calendarsForEntityType_ store ek_type in
  map (fun cal =>
         [("title", Py.Str (title cal));
          ("calendar_id", Py.Str (calendarIdentifier cal));
          ("type", Py.Int (calendar_type cal));
          ("allows_modifications", Py.Bool (allowsContentModifications cal));
          ("color", opt_str (color cal))])
    calendars.

(** [list_reminder_lists] *)
Definition list_reminder_lists (store : EKEventStore) : list Py.dict :=
  let calendars := calendarsForEntityType_ store EKEntityTypeReminder in
  map (fun cal =>
         [("title", Py.Str (title cal));
          ("calendar_id", Py.Str (calendarIdentifier cal));
          ("allows_modifications", Py.Bool (allowsContentModifications cal));
          ("color", opt_str (color cal))])
    calendars.

(** A printed calendar without its type. *)
Definition without_type (d : Py.dict) : Py.dict :=
  filter (fun kv => negb (String.eqb (fst kv) "type")) d.

(** The setters [update_event] calls: one for every argument that is
    not [None]. *)
Definition changed_event (event : EKEvent) (title_ : option string)
  (start end_ : option datetime) (location_ notes_ : option string)
  : EKEvent :=
  {| eventIdentifier := eventIdentifier event;
     event_title :=
       match title_ with Some t => Some t | None => event_title event end;
     startDate :=
       match start with
       | Some s => Some (_nsdate_from_datetime s)
       | None => startDate event
       end;
     endDate :=
       match end_ with
       | Some e => Some (_nsdate_from_datetime e)
       | None => endDate event
       end;
     isAllDay := isAllDay event;
     location :=
       match location_ with Some l => Some l | None => location event end;
     notes := match notes_ with Some n => Some n | None => notes event end;
     URL := URL event;
     calendar := calendar event |}.

Definition no_attribute (name : string) : Py.exn :=
  Py.AttributeError
    ("'NoneType' object has no attribute '" ++ name ++ "'").

(** [update_event] *)
Definition update_event (store : EKEventStore) (event_id : string)
  (title_ : option string) (start end_ : option datetime)
  (location_ notes_ : option string) (future_events : bool)
  : EKEventStore * Py.result Py.dict :=
  match eventWithIdentifier_ store event_id with
  | None =>
      (store, Py.Raise (Py.ValueError ("Event '" ++ event_id ++ "' not found")))
  | Some event =>
      let event := changed_event event title_ start end_ location_ notes_ in
      let span :=
        if future_events then EKSpanFutureEvents else EKSpanThisEvent in
      let '(store', event, (success, error)) :=
        saveEvent_span_error_ store event span in
      if negb success then
        (store',
         Py.Raise (Py.RuntimeError ("Failed to update event: " ++ error)))
      else
        match startDate event, endDate event, calendar event with
        | None, _, _ | Some _, None, _ =>
            (store', Py.Raise (no_attribute "timeIntervalSince1970"))
        | Some _, Some _, None => (store', Py.Raise (no_attribute "title"))
        | Some s, Some e, Some cal =>
            (store',
             Py.Return
               [("event_id", opt_str (eventIdentifier event));
                ("title", opt_str (event_title event));
                ("start", Py.Str (isoformat (_datetime_from_nsdate s)));
                ("end", Py.Str (isoformat (_datetime_from_nsdate e)));
                ("calendar", Py.Str (title cal))])
        end
  end.

(** *** Reminders *)

Record EKReminder := {
  calendarItemIdentifier : string;
  reminder_title : option string;
  dueDateComponents : option NSDateComponents;
  reminder_notes : option string;
  priority : Z;
  isCompleted : bool;
  completionDate : option NSDate;
  reminder_calendar : option EKCalendar
}.

Definition lacks_calendar (r : EKReminder) : bool :=
  match reminder_calendar r with Some _ => false | None => true end.

(** What the store does with the completion handler of
    [fetchRemindersMatchingPredicate_completion_]: call it after [delay]
    time units with the reminders (possibly [nil]), or never. *)
Inductive fetch :=
| FetchedAfter (delay : Z) (reminders : option (list EKReminder))
| NeverFetched.

(** The reminder side of the store.  [fetchReminders] stands for the
    predicate and the fetch together: the flag tells whether completed
    reminders are included ([predicateForRemindersInCalendars_]) or not
    ([predicateForIncompleteRemindersWithDueDateStarting_ending_calendars_]
    without dates). *)
Class ReminderKit := {
  reminderWithEventStore_ : EKEventStore -> EKReminder;
  defaultCalendarForNewReminders : EKEventStore -> option EKCalendar;
  calendarItemWithIdentifier_ : EKEventStore -> string -> option EKReminder;
  saveReminder_commit_error_ :
    EKEventStore -> EKReminder -> EKEventStore * EKReminder * (bool * string);
  removeReminder_commit_error_ :
    EKEventStore -> EKReminder -> EKEventStore * (bool * string);
  fetchReminders :
    EKEventStore -> bool -> option (list EKCalendar) -> fetch;
  (** [NSDate.date()] *)
  NSDate_date : NSDate
}.

Context {R : ReminderKit}.

Definition set_calendar (r : EKReminder) (c : option EKCalendar) : EKReminder :=
  {| calendarItemIdentifier := calendarItemIdentifier r;
     reminder_title := reminder_title r;
     dueDateComponents := dueDateComponents r;
     reminder_notes := reminder_notes r;
     priority := priority r;
     isCompleted := isCompleted r;
     completionDate := completionDate r;
     reminder_calendar := c |}.

Definition opt_isoformat (o : option datetime) : Py.value :=
  match o with
  | Some dt => Py.Str (isoformat dt)
  | None => Py.NoneValue
  end.

(** [create_reminder] *)
Definition create_reminder (store : EKEventStore) (title_ : string)
  (due_date : option datetime) (list_name notes_ : option string)
  (priority_ : Z) : EKEventStore * Py.result Py.dict :=
  let reminder := reminderWithEventStore_ store in
  let reminder :=
    {| calendarItemIdentifier := calendarItemIdentifier reminder;
       reminder_title := Some title_;
       dueDateComponents :=
         match due_date with
         | Some d => Some (components_fromDate_ (_nsdate_from_datetime d))
         | None => dueDateComponents reminder
         end;
       reminder_notes :=
         if truthy notes_ then notes_ else reminder_notes reminder;
       priority := priority_;
       isCompleted := isCompleted reminder;
       completionDate := completionDate reminder;
       reminder_calendar := reminder_calendar reminder |} in
  let save (reminder : EKReminder) : EKEventStore * Py.result Py.dict :=
    let '(store', reminder, (success, error)) :=
      saveReminder_commit_error_ store reminder in
    if negb success then
      (store',
       Py.Raise (Py.RuntimeError ("Failed to save reminder: " ++ error)))
    else
      match reminder_calendar reminder with
      | None => (store', Py.Raise (no_attribute "title"))
      | Some cal =>
          (store',
           Py.Return
             [("reminder_id", Py.Str (calendarItemIdentifier reminder));
              ("title", Py.Str title_);
              ("due_date", opt_isoformat due_date);
              ("list", Py.Str (title cal));
              ("priority", Py.Int priority_);
              ("completed", Py.Bool false)])
      end in
  if truthy list_name then
    match get_reminder_list_by_name store (the list_name) with
    | None =>
        (store,
         Py.Raise (Py.ValueError
                     ("Reminder list '" ++ the list_name ++ "' not found")))
    | Some reminder_list => save (set_calendar reminder (Some reminder_list))
    end
  else save (set_calendar reminder (defaultCalendarForNewReminders store)).

(** The calendars [get_reminders] hands to the predicate. *)
Definition get_reminders_calendars (store : EKEventStore)
  (list_names : option (list string)) : option (list EKCalendar) :=
  match list_names with
  | Some ((_ :: _) as names) =>
      let calendars :=
        map (fun name => get_reminder_list_by_name store name) names in
      Some (flat_map (fun c => match c with Some cal => [cal] | None => [] end)
              calendars)
  | _ => None
  end.

(** [event.wait(timeout=30)] on the fetch, and [reminders[0] or []]
    afterwards. *)
Definition fetched (f : fetch) (timeout : Z) : list EKReminder :=
  match f with
  | FetchedAfter delay (Some reminders) =>
      if (delay <? timeout)%Z then reminders else []
  | _ => []
  end.

(** The due date of a reminder as [get_reminders] and [update_reminder]
    print it. *)
Definition due_of (r : EKReminder) : Py.value :=
  match dueDateComponents r with
  | Some components =>
      match dateFromComponents_ components with
      | Some due_nsdate => Py.Str (isoformat (_datetime_from_nsdate due_nsdate))
      | None => Py.NoneValue
      end
  | None => Py.NoneValue
  end.

(** The loop of [get_reminders]: one entry per reminder, in order; a
    reminder without a calendar stops it with an exception. *)
Fixpoint reminder_dicts (l : list EKReminder) : Py.result (list Py.dict) :=
  match l with
  | [] => Py.Return []
  | r :: rest =>
      match reminder_calendar r with
      | None => Py.Raise (no_attribute "title")
      | Some cal =>
          match reminder_dicts rest with
          | Py.Raise e => Py.Raise e
          | Py.Return result =>
              Py.Return
                ([("reminder_id", Py.Str (calendarItemIdentifier r));
                  ("title", opt_str (reminder_title r));
                  ("due_date", due_of r);
                  ("notes", opt_str (reminder_notes r));
                  ("priority", Py.Int (priority r));
                  ("completed", Py.Bool (isCompleted r));
                  ("list", Py.Str (title cal))] :: result)
          end
      end
  end.

(** [get_reminders] *)
Definition get_reminders (store : EKEventStore)
  (list_names : option (list string)) (include_completed : bool)
  : Py.result (list Py.dict) :=
  let calendars := get_reminders_calendars store list_names in
  reminder_dicts (fetched (fetchReminders store include_completed calendars) 30).

(** [complete_reminder] *)
Definition complete_reminder (store : EKEventStore) (reminder_id : string)
  (completed : bool) : EKEventStore * Py.result Py.dict :=
  match calendarItemWithIdentifier_ store reminder_id with
  | None =>
      (store,
       Py.Raise (Py.ValueError ("Reminder '" ++ reminder_id ++ "' not found")))
  | Some reminder =>
      let reminder :=
        {| calendarItemIdentifier := calendarItemIdentifier reminder;
           reminder_title := reminder_title reminder;
           dueDateComponents := dueDateComponents reminder;
           reminder_notes := reminder_notes reminder;
           priority := priority reminder;
           isCompleted := completed;
           completionDate := if completed then Some NSDate_date else None;
           reminder_calendar := reminder_calendar reminder |} in
      let '(store', reminder, (success, error)) :=
        saveReminder_commit_error_ store reminder in
      if negb success then
        (store',
         Py.Raise (Py.RuntimeError ("Failed to update reminder: " ++ error)))
      else
        (store',
         Py.Return
           [("reminder_id", Py.Str reminder_id);
            ("title", opt_str (reminder_title reminder));
            ("completed", Py.Bool completed)])
  end.

(** [delete_reminder] *)
Definition delete_reminder (store : EKEventStore) (reminder_id : string)
  : EKEventStore * Py.result bool :=
  match calendarItemWithIdentifier_ store reminder_id with
  | None =>
      (store,
       Py.Raise (Py.ValueError ("Reminder '" ++ reminder_id ++ "' not found")))
  | Some reminder =>
      let '(store', (success, error)) :=
        removeReminder_commit_error_ store reminder in
      if negb success then
        (store',
         Py.Raise (Py.RuntimeError ("Failed to delete reminder: " ++ error)))
      else (store', Py.Return true)
  end.

(** [update_reminder] *)
Definition update_reminder (store : EKEventStore) (reminder_id : string)
  (title_ : option string) (due_date : option datetime)
  (notes_ : option string) (priority_ : option Z)
  : EKEventStore * Py.result Py.dict :=
  match calendarItemWithIdentifier_ store reminder_id with
  | None =>
      (store,
       Py.Raise (Py.ValueError ("Reminder '" ++ reminder_id ++ "' not found")))
  | Some reminder =>
      let reminder :=
        {| calendarItemIdentifier := calendarItemIdentifier reminder;
           reminder_title :=
             match title_ with
             | Some t => Some t
             | None => reminder_title reminder
             end;
           dueDateComponents :=
             match due_date with
             | Some d => Some (components_fromDate_ (_nsdate_from_datetime d))
             | None => dueDateComponents reminder
             end;
           reminder_notes :=
             match notes_ with
             | Some n => Some n
             | None => reminder_notes reminder
             end;
           priority :=
             match priority_ with Some p => p | None => priority reminder end;
           isCompleted := isCompleted reminder;
           completionDate := completionDate reminder;
           reminder_calendar := reminder_calendar reminder |} in
      let '(store', reminder, (success, error)) :=
        saveReminder_commit_error_ store reminder in
      if negb success then
        (store',
         Py.Raise (Py.RuntimeError ("Failed to update reminder: " ++ error)))
      else
        match reminder_calendar reminder with
        | None => (store', Py.Raise (no_attribute "title"))
        | Some cal =>
            (store',
             Py.Return
               [("reminder_id", Py.Str reminder_id);
                ("title", opt_str (reminder_title reminder));
                ("due_date", due_of reminder);
                ("list", Py.Str (title cal));
                ("priority", Py.Int (priority reminder));
                ("completed", Py.Bool (isCompleted reminder))])
        end
  end.

End Methods.

End Manager.

(** ** calendar_utils.py: the command line *)

Module CommandLine.

Import PyStr Calendar Manager.

(** What ends a run besides the exceptions of the manager:
    [datetime.fromisoformat] raises [ValueError], and adding a
    [timedelta] can raise [OverflowError]. *)
Inductive exception :=
| Raised (e : Py.exn)
| OverflowError (message : string).

Inductive outcome (A : Type) :=
| Done (a : A)
| Failed (e : exception).

Arguments Done {A} a.
Arguments Failed {A} e.

Definition bind {A B : Type} (m : outcome A) (k : A -> outcome B) : outcome B :=
  match m with
  | Done a => k a
  | Failed e => Failed e
  end.

Notation "'let!' x ':=' m 'in' k" := (bind m (fun x => k))
  (at level 10, x pattern, k at level 200).

Definition of_result {A : Type} (r : Py.result A) : outcome A :=
  match r with
  | Py.Return a => Done a
  | Py.Raise e => Failed (Raised e)
  end.

(** The date functions of the standard library the handlers call:
    [datetime.fromisoformat], [datetime.now()] with the time of day set
    to zero, and the sum of a date with [timedelta(days=n)] or
    [timedelta(minutes=n)]. *)
Class Clock {F : Foundation} := {
  fromisoformat : string -> outcome datetime;
  today_midnight : datetime;
  plus_days : datetime -> Z -> outcome datetime;
  plus_minutes : datetime -> Z -> outcome datetime
}.

(** The parsed command line. *)
Inductive command :=
| ListCalendars
| ListEvents (start end_ : option string) (days : Z)
| CreateEvent (title_ start : string) (end_ : option string) (duration : Z)
    (calendar_ location_ notes_ : option string) (all_day : bool)
| DeleteEvent (event_id : string) (future : bool)
| ListReminderLists
| ListReminders (list_name : option string) (include_completed : bool)
| CreateReminder (title_ : string) (due list_name notes_ : option string)
    (priority_ : Z)
| CompleteReminder (reminder_id : string) (undo : bool)
| DeleteReminder (reminder_id : string).

(** [args.command in ["list-reminder-lists", "list-reminders",
    "create-reminder", "complete-reminder", "delete-reminder"]] *)
Definition is_reminder_command (c : command) : bool :=
  match c with
  | ListReminderLists | ListReminders _ _ | CreateReminder _ _ _ _ _
  | CompleteReminder _ _ | DeleteReminder _ => true
  | _ => false
  end.

(** What a handler prints on standard output. *)
Inductive printed :=
| JsonList (l : list Py.dict)
| JsonDict (d : Py.dict)
| Line (text : string).

Inductive stderr_line :=
| Message (text : string)
| Traceback (e : exception).

Record process := {
  stdout : list printed;
  stderr : list stderr_line;
  exit_code : Z;
  uncaught : option exception
}.

Section Main.

Context {F : Foundation} {E : EventKit} {D : CalendarDetails}
  {C : DateComponents} {R : ReminderKit} {K : Clock}.

(** The handlers, one per command: the store afterwards and what was
    printed, or the exception that ended the handler. *)
Definition handler (store : EKEventStore) (c : command)
  : EKEventStore * outcome printed :=
  match c with
  | ListCalendars => (store, Done (JsonList (list_calendars store "event")))
  | ListEvents start end_ days =>
      (store,
       let! start :=
         if truthy start then fromisoformat (the start)
         else Done today_midnight in
       let! end_ :=
         if truthy end_ then fromisoformat (the end_)
         else plus_days start days in
       let! events := of_result (get_events store start end_ None) in
       Done (JsonList events))
  | CreateEvent title_ start end_ duration calendar_ location_ notes_ all_day =>
      match
        (let! start := fromisoformat start in
         let! end_ :=
           if truthy end_ then fromisoformat (the end_)
           else plus_minutes start duration in
         Done (start, end_))
      with
      | Failed e => (store, Failed e)
      | Done (start, end_) =>
          let (store', result) :=
            create_event store title_ start end_ calendar_ location_ notes_
              all_day None in
          (store', let! d := of_result result in Done (JsonDict d))
      end
  | DeleteEvent event_id future =>
      let (store', result) := delete_event store event_id future in
      (store',
       let! _ := of_result result in
       Done (Line ("Deleted event: " ++ event_id)))
  | ListReminderLists => (store, Done (JsonList (list_reminder_lists store)))
  | ListReminders list_name include_completed =>
      let list_names :=
        if truthy list_name then Some [the list_name] else None in
      (store,
       let! reminders :=
         of_result (get_reminders store list_names include_completed) in
       Done (JsonList reminders))
  | CreateReminder title_ due list_name notes_ priority_ =>
      match
        (if truthy due then
           let! d := fromisoformat (the due) in Done (Some d)
         else Done None)
      with
      | Failed e => (store, Failed e)
      | Done due_date =>
          let (store', result) :=
            create_reminder store title_ due_date list_name notes_ priority_ in
          (store', let! d := of_result result in Done (JsonDict d))
      end
  | CompleteReminder reminder_id undo =>
      let (store', result) :=
        complete_reminder store reminder_id (negb undo) in
      (store', let! d := of_result result in Done (JsonDict d))
  | DeleteReminder reminder_id =>
      let (store', result) := delete_reminder store reminder_id in
      (store',
       let! _ := of_result result in
       Done (Line ("Deleted reminder: " ++ reminder_id)))
  end.

(** The [__main__] block after [parser.parse_args()]: a fresh manager
    asks for the access the command needs, then the handler runs; an
    exception of the handler ends the program. *)
Definition main (h : access_host) (store : EKEventStore) (c : command)
  : access_host * EKEventStore * process :=
  let mgr := {| _authorized_events := false; _authorized_reminders := false |} in
  let '(mgr, h, granted) :=
    if is_reminder_command c then request_reminder_access mgr h
    else request_event_access mgr h in
  if negb granted then
    (h, store,
     {| stdout := [];
        stderr :=
          [Message (if is_reminder_command c
                    then "Error: Reminders access not granted"
                    else "Error: Calendar access not granted")];
        exit_code := 1;
        uncaught := None |})
  else
    match handler store c with
    | (store, Failed e) =>
        (h, store,
         {| stdout := []; stderr := [Traceback e]; exit_code := 1;
            uncaught := Some e |})
    | (store, Done p) =>
        (h, store,
         {| stdout := [p]; stderr := []; exit_code := 0; uncaught := None |})
    end.

End Main.

(** The commands that only read the store. *)
Definition is_listing (c : command) : bool :=
  match c with
  | ListCalendars | ListEvents _ _ _ | ListReminderLists
  | ListReminders _ _ => true
  | _ => false
  end.

End CommandLine.

(** ** A desk-top host for the examples *)

Module Desk.

Import Calendar Manager CommandLine.

Definition details : CalendarDetails :=
  {| calendar_type := fun _ => 0%Z;
     allowsContentModifications := fun _ => true;
     color := fun _ => None |}.

(** Date components as whole minutes. *)
Definition minutes : @DateComponents Fixtures.seconds :=
  @Build_DateComponents Fixtures.seconds Z
    (fun d : Z => (d / 60)%Z) (fun m : Z => Some (m * 60)%Z).

Definition blank : @EKReminder Fixtures.seconds minutes :=
  @Build_EKReminder Fixtures.seconds minutes "rem-new" None None None 0%Z
    false None None.

(** A reminder store that knows no reminder, saves and removes without
    complaint, and never answers a fetch. *)
Definition quiet : @ReminderKit Fixtures.seconds Fixtures.simple minutes :=
  @Build_ReminderKit Fixtures.seconds Fixtures.simple minutes
    (fun _ => blank)
    (fun st : Fixtures.simple_store => hd_error (Fixtures.reminder_calendars st))
    (fun _ _ => None)
    (fun st r => (st, r, (true, EmptyString)))
    (fun st _ => (st, (true, EmptyString)))
    (fun _ _ _ => NeverFetched)
    0%Z.

(** A store with one reminder list and one reminder in it, which
    answers every fetch after one time unit with the reminders of the
    calendars asked for. *)
Definition chores : EKCalendar :=
  {| title := "Chores"; calendarIdentifier := "list-1" |}.

Definition letter : @EKReminder Fixtures.seconds minutes :=
  @Build_EKReminder Fixtures.seconds minutes "rem-1" (Some "Post letter")
    None None 0%Z false None (Some chores).

Definition home : Fixtures.simple_store :=
  {| Fixtures.event_calendars := [Fixtures.work];
     Fixtures.reminder_calendars := [chores];
     Fixtures.events := [Fixtures.standup] |}.

Definition in_lists (cals : list EKCalendar)
  (r : @EKReminder Fixtures.seconds minutes) : bool :=
  match reminder_calendar r with
  | Some c =>
      existsb
        (fun c' => String.eqb (calendarIdentifier c') (calendarIdentifier c))
        cals
  | None => false
  end.

Definition answering : @ReminderKit Fixtures.seconds Fixtures.simple minutes :=
  @Build_ReminderKit Fixtures.seconds Fixtures.simple minutes
    (fun _ => blank)
    (fun st : Fixtures.simple_store => hd_error (Fixtures.reminder_calendars st))
    (fun _ _ => None)
    (fun st r => (st, r, (true, EmptyString)))
    (fun st _ => (st, (true, EmptyString)))
    (fun _ _ cals =>
       FetchedAfter 1
         (Some match cals with
               | None => [letter]
               | Some l => filter (in_lists l) [letter]
               end))
    0%Z.

(** A clock that reads one date only. *)
Definition clock : @Clock Fixtures.seconds :=
  @Build_Clock Fixtures.seconds
    (fun s =>
       if String.eqb s "1970-01-02T00:00:00" then Done 86400%Z
       else Failed (Raised (Py.ValueError
                              ("Invalid isoformat string: '" ++ s ++ "'"))))
    0%Z
    (fun (d : Z) n => Done (d + 86400 * n)%Z)
    (fun (d : Z) n => Done (d + 60 * n)%Z).

End Desk.

(** * Properties *)

Local Open Scope string_scope.

(** ** Strings *)

Section StringFacts.

Import PyStr.




Lemma lstrip_head (s : string) (c : ascii) (r : string) :
  lstrip s = String c r -> isspace c = false.
Proof.
  induction s as [|a s IH]; simpl; intros H.
  - discriminate.
  - destruct (isspace a) eqn:E.
    + exact (IH H).
    + injection H as -> _. exact E.
Qed.

Lemma rstrip_head (c : ascii) (r : string) :
  isspace c = false -> exists r', rstrip (String c r) = String c r'.
Proof.
  intros Hc. simpl. destruct (rstrip r) as [|a r'].
  - rewrite Hc. eexists. reflexivity.
  - eexists. reflexivity.
Qed.

Lemma rstrip_idempotent (s : string) : rstrip (rstrip s) = rstrip s.
Proof.
  induction s as [|c r IH]; simpl.
  - reflexivity.
  - destruct (rstrip r) as [|a r'] eqn:E.
    + destruct (isspace c) eqn:Ec; simpl; [reflexivity|].
      rewrite Ec. reflexivity.
    + change (rstrip (String c (String a r')))
        with (match rstrip (String a r') with
              | EmptyString =>
                  if isspace c then EmptyString else String c EmptyString
              | r'' => String c r''
              end).
      rewrite IH. reflexivity.
Qed.

Lemma strip_idempotent (s : string) : strip (strip s) = strip s.
Proof.
  unfold strip. destruct (lstrip s) as [|c r] eqn:E.
  - reflexivity.
  - pose proof (lstrip_head s c r E) as Hc.
    destruct (rstrip_head c r Hc) as [r' Hr]. rewrite Hr.
    cbn [lstrip]. rewrite Hc, <- Hr. apply rstrip_idempotent.
Qed.

Lemma filter_map_commute {A B : Type} (f : A -> B) (p : B -> bool)
  (l : list A) :
  map f (filter (fun x => p (f x)) l) = filter p (map f l).
Proof.
  induction l as [|x l IH]; simpl.
  - reflexivity.
  - destruct (p (f x)); simpl; rewrite IH; reflexivity.
Qed.

Lemma stripped_lines_records (output : string) :
  Notes.stripped_lines output = Spec.records output.
Proof.
  unfold Notes.stripped_lines, Spec.records. apply filter_map_commute.
Qed.

End StringFacts.

(** ** Escaping and AppleScript literals *)

Section EscapeFacts.

Import PyStr Notes AppleScript Template.

Lemma escape_cons (c : ascii) (s : string) :
  escape_for_applescript (String c s)
  = (escape_char c ++ escape_for_applescript s)%string.
Proof.
  unfold escape_for_applescript, escape_char. simpl.
  destruct (Ascii.eqb c BACKSLASH) eqn:Eb.
  - reflexivity.
  - simpl. destruct (Ascii.eqb c DQUOTE); reflexivity.
Qed.

Lemma read_literal_escape (s rest : string) :
  read_literal (escape_for_applescript s ++ String DQUOTE rest)
  = Some (s, rest).
Proof.
  induction s as [|c s IH].
  - reflexivity.
  - rewrite escape_cons. unfold escape_char.
    destruct (Ascii.eqb c BACKSLASH) eqn:Eb.
    + apply Ascii.eqb_eq in Eb. subst c. simpl. simpl in IH.
      rewrite IH. reflexivity.
    + destruct (Ascii.eqb c DQUOTE) eqn:Eq.
      * apply Ascii.eqb_eq in Eq. subst c. simpl. simpl in IH.
        rewrite IH. reflexivity.
      * simpl. rewrite Eq, Eb. simpl in IH. rewrite IH. reflexivity.
Qed.

Lemma lex_app (s r : string) : forall st,
  lex st (s ++ r) =
  let (t1, st1) := lex st s in
  let (t2, st2) := lex st1 r in
  ((t1 ++ t2)%list, st2).
Proof.
  induction s as [|c s IH]; intros st; simpl.
  - destruct (lex st r); reflexivity.
  - destruct (lex_step st c) as [t1 st1]. rewrite IH.
    destruct (lex st1 s) as [t2 st2]. destruct (lex st2 r) as [t3 st3].
    rewrite app_assoc. reflexivity.
Qed.

Lemma append_snoc (acc : string) (c : ascii) (s : string) :
  (snoc acc c ++ s)%string = (acc ++ String c s)%string.
Proof.
  unfold snoc. induction acc as [|a acc IH]; simpl.
  - reflexivity.
  - rewrite IH. reflexivity.
Qed.

Lemma lex_escape_char (c : ascii) (acc : string) :
  lex (InLiteral acc) (escape_char c) = ([], InLiteral (snoc acc c)).
Proof.
  unfold escape_char.
  destruct (Ascii.eqb c BACKSLASH) eqn:Eb.
  - apply Ascii.eqb_eq in Eb. subst c. reflexivity.
  - destruct (Ascii.eqb c DQUOTE) eqn:Eq.
    + apply Ascii.eqb_eq in Eq. subst c. reflexivity.
    + simpl. rewrite Eq, Eb. reflexivity.
Qed.

Lemma append_empty (s : string) : s ++ "" = s.
Proof. induction s; simpl; congruence. Qed.

Lemma lex_escaped (s : string) : forall acc,
  lex (InLiteral acc) (escape_for_applescript s)
  = ([], InLiteral (acc ++ s)).
Proof.
  induction s as [|c s IH]; intros acc.
  - simpl. rewrite append_empty. reflexivity.
  - rewrite escape_cons, lex_app, lex_escape_char, IH, append_snoc.
    reflexivity.
Qed.

(** C4.  [escape_for_applescript] rewrites backslashes first and double
    quotes second, and a literal written with the escaped text reads back
    as the original text: the closing quote that follows the escaped text
    is the one that ends the literal, whatever mix of backslashes and
    double quotes the text holds.  For the five characters a, double
    quote, b, backslash, c the literal read back is the whole text, so
    it does not close before the c. *)
Theorem escape_round_trip :
  (forall text : string,
      escape_for_applescript text
      = replace DQUOTE (String BACKSLASH (String DQUOTE EmptyString))
          (replace BACKSLASH (String BACKSLASH (String BACKSLASH EmptyString))
             text))
  /\ (forall text rest : string,
         read_literal (escape_for_applescript text ++ String DQUOTE rest)
         = Some (text, rest))
  /\ (forall text : string,
         tokens (String DQUOTE (escape_for_applescript text
                                ++ String DQUOTE EmptyString))
         = Some [Literal text])
  /\ (let abc := String "a" (String DQUOTE (String "b" (String BACKSLASH "c"))) in
      escape_for_applescript abc
      = String "a" (String BACKSLASH (String DQUOTE (String "b"
          (String BACKSLASH (String BACKSLASH "c")))))
      /\ read_literal (escape_for_applescript abc
                       ++ String DQUOTE " of targetAccount")
         = Some (abc, " of targetAccount")).
Proof.
  split; [reflexivity|]. split; [exact read_literal_escape|]. split.
  - intros text. unfold tokens.
    change (lex InCode (String DQUOTE (escape_for_applescript text
                                       ++ String DQUOTE "")))
      with (let (t2, st2) :=
              lex (InLiteral "") (escape_for_applescript text
                                  ++ String DQUOTE "") in
            ((@nil token ++ t2)%list, st2)).
    rewrite lex_app, lex_escaped. reflexivity.
  - split; [reflexivity | apply read_literal_escape].
Qed.

End EscapeFacts.

(** ** The script runner and the decoders of notes_manager.py *)

Section NotesCommands.

Import PyStr Notes.

Variable osascript : string -> run_outcome.

(** C10.  [run_applescript] answers every script with a pair: exit code
    zero gives [True] and the trimmed standard output, any other exit code
    [False] and the trimmed standard error, the 30 second timeout [False]
    and a fixed message, any other exception [False] and its message.
    There is no other case, so the command handlers always receive a
    pair; the text of a completed run has no white space left at either
    end. *)
Theorem run_applescript_total (script : string) :
  (exists (success : bool) (text : string),
      run_applescript osascript script = (success, text)
      /\ match osascript script with
         | Completed returncode stdout stderr =>
             success = (returncode =? 0)%Z
             /\ text = strip (if (returncode =? 0)%Z then stdout else stderr)
             /\ strip text = text
         | TimeoutExpired =>
             success = false /\ text = "AppleScript execution timed out"
         | OtherException message =>
             success = false /\ text = message
         end).
Proof.
  unfold run_applescript.
  destruct (osascript script) as [rc out err | | msg].
  - destruct (rc =? 0)%Z; eexists; eexists; split; try reflexivity;
      repeat split; apply strip_idempotent.
  - eexists; eexists; split; [reflexivity | split; reflexivity].
  - eexists; eexists; split; [reflexivity | split; reflexivity].
Qed.

(** C6, as the code has it.  [list_notes] looks for a leading [ERROR:]
    before anything else and answers such a response with a failure that
    carries the response; any other response is split on line feed, each
    line trimmed, the empty lines dropped, and what remains are the
    records.  [search_notes], [list_accounts] and [list_folders] decode
    the same way but without the check: whatever the script printed is a
    list of records. *)
Theorem textual_store_decoding :
  (forall folder account : option string,
      list_notes osascript folder account =
      let (success, output) :=
        run_applescript osascript (list_notes_script folder account) in
      if negb success then failure output
      else if startswith output "ERROR:" then failure output
      else [("success", Py.Bool true);
            ("notes", Py.StrList (Spec.records output));
            ("count", Py.Int (Z.of_nat (List.length (Spec.records output))))])
  /\ (forall query : string,
         search_notes osascript query =
         let (success, output) :=
           run_applescript osascript (search_notes_script query) in
         if negb success then failure output
         else [("success", Py.Bool true); ("query", Py.Str query);
               ("notes", Py.StrList (Spec.records output));
               ("count",
                Py.Int (Z.of_nat (List.length (Spec.records output))))])
  /\ (list_accounts osascript =
      let (success, output) := run_applescript osascript list_accounts_script in
      if negb success then failure output
      else [("success", Py.Bool true);
            ("accounts", Py.StrList (Spec.records output));
            ("count", Py.Int (Z.of_nat (List.length (Spec.records output))))])
  /\ (list_folders osascript =
      let (success, output) := run_applescript osascript list_folders_script in
      if negb success then failure output
      else [("success", Py.Bool true);
            ("folders", Py.StrList (Spec.records output));
            ("count", Py.Int (Z.of_nat (List.length (Spec.records output))))])
  /\ (forall output : string,
         Forall (fun record =>
                   record <> EmptyString
                   /\ In record (map strip (split LF output)))
           (Spec.records output)).
Proof.
  repeat match goal with |- _ /\ _ => split end.
  - intros folder account. unfold list_notes.
    destruct (run_applescript osascript _) as [success output].
    unfold count_of. rewrite stripped_lines_records. reflexivity.
  - intros query. unfold search_notes.
    destruct (run_applescript osascript _) as [success output].
    unfold count_of. rewrite stripped_lines_records. reflexivity.
  - unfold list_accounts.
    destruct (run_applescript osascript _) as [success output].
    unfold count_of. rewrite stripped_lines_records. reflexivity.
  - unfold list_folders.
    destruct (run_applescript osascript _) as [success output].
    unfold count_of. rewrite stripped_lines_records. reflexivity.
  - intros output. apply Forall_forall. intros record H.
    unfold Spec.records in H. apply filter_In in H. destruct H as [Hin Hne].
    split; [|exact Hin]. intros ->. discriminate Hne.
Qed.

End NotesCommands.

(** C6, the claim as written, fails for [search_notes]: a response that
    begins with [ERROR:] is decoded as a record set.  The response below
    is what the search script prints for a note [Milk] in an account
    named [ERROR: archive]. *)
Lemma search_notes_keeps_error_prefix :
  let response := "ERROR: archive > Milk" in
  let osascript := fun _ : string => AppleScript.returns response in
  PyStr.startswith response "ERROR:" = true
  /\ Notes.search_notes osascript "milk"
     = [("success", Py.Bool true); ("query", Py.Str "milk");
        ("notes", Py.StrList ["ERROR: archive > Milk"]);
        ("count", Py.Int 1)]
  /\ Notes.list_notes osascript None None
     = Notes.failure "ERROR: archive > Milk".
Proof. repeat split. Qed.

(** C1.  [delete_note] and [append_to_note] put the title into the script
    twice: escaped, in the literal the note is looked up by, and as it
    came, in the literal of the SUCCESS message.  With a double quote in
    the title the second literal ends inside the title.  For the title
    [Titles.payload] the rest of the title is read as code, with a literal
    of its own; for [Titles.inch] the script no longer ends outside a
    literal.  [read_note] escapes its only use of the title and keeps the
    whole title in one literal. *)
Theorem raw_title_leaves_literal :
  option_map AppleScript.literals_of
    (AppleScript.tokens (Notes.delete_note_script Titles.payload None None))
  = Some ["Notes"; Titles.payload; "SUCCESS: Deleted note 'x"; "id";
          "' from "; "ERROR: Note not found"]
  /\ option_map AppleScript.literals_of
       (AppleScript.tokens
          (Notes.append_to_note_script Titles.payload "more" None))
     = Some ["Notes"; Titles.payload; "<br>"; "more";
             "SUCCESS: Appended to note 'x"; "id"; "' in ";
             "ERROR: Note not found"]
  /\ option_map AppleScript.literals_of
       (AppleScript.tokens
          (Notes.delete_note_script Titles.payload None (Some "iCloud")))
     = Some ["Notes"; "iCloud"; Titles.payload; "SUCCESS: Deleted note 'x";
             "id"; "'"; "ERROR: "]
  /\ option_map AppleScript.literals_of
       (AppleScript.tokens
          (Notes.append_to_note_script Titles.payload "more" (Some "iCloud")))
     = Some ["Notes"; "iCloud"; Titles.payload; "<br>"; "more";
             "SUCCESS: Appended to note 'x"; "id"; "'"; "ERROR: "]
  /\ AppleScript.tokens (Notes.delete_note_script Titles.inch None None) = None
  /\ AppleScript.tokens
       (Notes.append_to_note_script Titles.inch "more" None) = None
  /\ option_map AppleScript.literals_of
       (AppleScript.tokens
          (Notes.read_note_script Titles.payload None None false))
     = Some ["Notes"; Titles.payload; "ERROR: Note not found"].
Proof. vm_compute. repeat split. Qed.

(** ** Escaped fields stay inside their literals *)

Section Templates.

Import PyStr Notes AppleScript Template.

Lemma lex_pieces_sound (l : list piece) : forall st res,
  lex_pieces st l = Some res -> lex st (fstring (map part_of l)) = res.
Proof.
  induction l as [|p l IH]; intros st res H.
  - simpl in *. congruence.
  - destruct p as [s | | | x].
    + cbn [lex_pieces] in H. cbn [map fstring]. rewrite lex_app.
      destruct (lex st (part_text (part_of (Text s)))) as [t1 st1].
      destruct (lex_pieces st1 l) as [[t2 st2]|] eqn:E; [|discriminate].
      rewrite (IH _ _ E). congruence.
    + cbn [lex_pieces] in H. cbn [map fstring]. rewrite lex_app.
      destruct (lex st (part_text (part_of Quote))) as [t1 st1].
      destruct (lex_pieces st1 l) as [[t2 st2]|] eqn:E; [|discriminate].
      rewrite (IH _ _ E). congruence.
    + cbn [lex_pieces] in H. cbn [map fstring]. rewrite lex_app.
      destruct (lex st (part_text (part_of Newline))) as [t1 st1].
      destruct (lex_pieces st1 l) as [[t2 st2]|] eqn:E; [|discriminate].
      rewrite (IH _ _ E). congruence.
    + cbn [lex_pieces] in H. destruct st as [ | acc | acc | ]; try discriminate.
      cbn [map fstring part_of part_text]. rewrite lex_app, lex_escaped.
      rewrite (IH _ _ H). destruct res. reflexivity.
Qed.

End Templates.

Ltac reify_parts l :=
  lazymatch l with
  | @nil _ => constr:(@nil Template.piece)
  | Notes.T ?s :: ?r =>
      let r' := reify_parts r in constr:(Template.Text s :: r')
  | Notes.Q :: ?r =>
      let r' := reify_parts r in constr:(Template.Quote :: r')
  | Notes.NL :: ?r =>
      let r' := reify_parts r in constr:(Template.Newline :: r')
  | Notes.V (Notes.escape_for_applescript ?x) :: ?r =>
      let r' := reify_parts r in constr:(Template.Escaped x :: r')
  | Notes.V ?x :: ?r =>
      let r' := reify_parts r in constr:(Template.Text x :: r')
  end.

Ltac lex_template :=
  repeat match goal with
  | |- context [AppleScript.lex ?st (Notes.fstring ?l)] =>
      let l' := reify_parts l in
      change (Notes.fstring l) with (Notes.fstring (map Template.part_of l'));
      rewrite (lex_pieces_sound l' st _ eq_refl)
  end.

Section EscapedScripts.

Import PyStr Notes AppleScript Template.

Ltac same_code :=
  unfold code, tokens; cbv zeta; lex_template;
  first [reflexivity | discriminate].

(** Every script of [list_notes], [create_note], [read_note],
    [search_notes] and [create_folder] is lexically well formed, and its
    code is the same whatever the strings: the fields only ever change
    the values of literals.  Which of the templates is used depends on
    which options are given, hence the two conditions. *)
Theorem escaped_fields_are_data
  (title title' body body' query query' name name' : string)
  (folder folder' account account' : option string) (plaintext : bool) :
  truthy folder = truthy folder' ->
  truthy account = truthy account' ->
  (code (list_notes_script folder account)
   = code (list_notes_script folder' account')
   /\ code (list_notes_script folder account) <> None)
  /\ (code (create_note_script title body folder account)
      = code (create_note_script title' body' folder' account')
      /\ code (create_note_script title body folder account) <> None)
  /\ (code (read_note_script title folder account plaintext)
      = code (read_note_script title' folder' account' plaintext)
      /\ code (read_note_script title folder account plaintext) <> None)
  /\ (code (search_notes_script query) = code (search_notes_script query')
      /\ code (search_notes_script query) <> None)
  /\ (code (create_folder_script name account)
      = code (create_folder_script name' account')
      /\ code (create_folder_script name account) <> None).
Proof.
  intros Hf Ha.
  unfold list_notes_script, create_note_script, read_note_script,
    search_notes_script, create_folder_script.
  destruct (truthy folder), (truthy account);
    rewrite <- Hf, <- Ha; cbn [andb]; destruct plaintext;
    repeat match goal with |- _ /\ _ => split end; same_code.
Qed.

End EscapedScripts.

(** ** Plain texts, line ends and the three unscoped programs *)

Section Helpers.

Import PyStr Notes AppleScript Template Measure.

Lemma escape_plain (s : string) :
  plain s = true -> escape_for_applescript s = s.
Proof.
  induction s as [|c s IH]; intros H.
  - reflexivity.
  - simpl in H. apply andb_true_iff in H. destruct H as [H Hs].
    apply andb_true_iff in H. destruct H as [Hq Hb].
    apply negb_true_iff in Hq, Hb.
    rewrite escape_cons. unfold escape_char. rewrite Hb, Hq.
    simpl. rewrite (IH Hs). reflexivity.
Qed.

Lemma append_assoc (a b c : string) : (a ++ b) ++ c = a ++ (b ++ c).
Proof. induction a as [|x a IH]; simpl; [reflexivity | rewrite IH; reflexivity]. Qed.

Lemma strip_keeps_head (c : ascii) (r : string) :
  isspace c = false -> exists r', strip (String c r) = String c r'.
Proof.
  intros Hc. unfold strip. simpl lstrip. rewrite Hc.
  apply rstrip_head. exact Hc.
Qed.

Lemma success_message_kept (rest : string) (d : Py.dict) :
  (if startswith (strip (String "S" rest)) "ERROR:"
   then failure (strip (String "S" rest)) else d) = d.
Proof.
  destruct (strip_keeps_head "S" rest eq_refl) as [r' Hr]. rewrite Hr.
  reflexivity.
Qed.








End Helpers.

(** ** Looking a note up by title without an account *)

Section UnscopedLookup.

Import PyStr Notes AppleScript Measure.

Variable name_is : string -> string -> bool.
Variable plaintext_of : string -> string.
Variable refuses : request -> account -> note -> bool.
Variable syntax_error : string -> string.
Variable other : list account -> string -> list account * run_outcome.

Lemma find_splits {A : Type} (p : A -> bool) (l : list A) (x : A) :
  find p l = Some x ->
  exists before after,
    l = (before ++ x :: after)%list
    /\ Forall (fun y => p y = false) before /\ p x = true.
Proof.
  induction l as [|y l IH]; simpl; intros H.
  - discriminate.
  - destruct (p y) eqn:E.
    + injection H as ->. exists [], l. repeat split; [constructor | exact E].
    + destruct (IH H) as (before & after & -> & Hb & Hx).
      exists (y :: before), after. repeat split.
      * constructor; assumption.
      * exact Hx.
Qed.



















End UnscopedLookup.



(** ** The access grant of calendar_utils.py *)

Section AccessGrant.

Import Calendar.

(** C8.  A grant request goes to the host only when the host reports
    the status as not determined.  When access is already authorized the
    call answers [True] with the host untouched: no request, no waiting.
    For any other settled status (denied, restricted) it answers [False],
    again with the host and the manager untouched. *)
Theorem grant_request_only_when_undetermined (self : manager)
  (h : access_host) :
  match authorizationStatusForEntityType_ h EKEntityTypeEvent with
  | EKAuthorizationStatusAuthorized =>
      request_event_access self h
      = ({| _authorized_events := true;
            _authorized_reminders := _authorized_reminders self |}, h, true)
  | EKAuthorizationStatusNotDetermined =>
      grant_requests (snd (fst (request_event_access self h)))
      = EKEntityTypeEvent :: grant_requests h
  | _ => request_event_access self h = (self, h, false)
  end
  /\ match authorizationStatusForEntityType_ h EKEntityTypeReminder with
     | EKAuthorizationStatusAuthorized =>
         request_reminder_access self h
         = ({| _authorized_events := _authorized_events self;
               _authorized_reminders := true |}, h, true)
     | EKAuthorizationStatusNotDetermined =>
         grant_requests (snd (fst (request_reminder_access self h)))
         = EKEntityTypeReminder :: grant_requests h
     | _ => request_reminder_access self h = (self, h, false)
     end.
Proof.
  unfold request_event_access, request_reminder_access. split.
  - destruct (authorizationStatusForEntityType_ h EKEntityTypeEvent);
      cbn [status_eqb]; try reflexivity.
    destruct (event_wait _ 30) as [elapsed fired]. reflexivity.
  - destruct (authorizationStatusForEntityType_ h EKEntityTypeReminder);
      cbn [status_eqb]; try reflexivity.
    destruct (event_wait _ 30) as [elapsed fired]. reflexivity.
Qed.

(** C3.  When the status is not determined and the host never calls the
    completion handler, the call returns [False] exactly 30 time units
    after it started, having sent one request, and records the refusal
    in the manager. *)
Theorem silent_host_is_denied_at_timeout (self : manager) (h : access_host) :
  (authorizationStatusForEntityType_ h EKEntityTypeEvent
   = EKAuthorizationStatusNotDetermined ->
   grant_behaviour h EKEntityTypeEvent = NoCompletion ->
   request_event_access self h
   = ({| _authorized_events := false;
         _authorized_reminders := _authorized_reminders self |},
      {| authorizationStatusForEntityType_ :=
           authorizationStatusForEntityType_ h;
         grant_behaviour := grant_behaviour h;
         clock := (clock h + 30)%Z;
         grant_requests := EKEntityTypeEvent :: grant_requests h |},
      false))
  /\ (authorizationStatusForEntityType_ h EKEntityTypeReminder
      = EKAuthorizationStatusNotDetermined ->
      grant_behaviour h EKEntityTypeReminder = NoCompletion ->
      request_reminder_access self h
      = ({| _authorized_events := _authorized_events self;
            _authorized_reminders := false |},
         {| authorizationStatusForEntityType_ :=
              authorizationStatusForEntityType_ h;
            grant_behaviour := grant_behaviour h;
            clock := (clock h + 30)%Z;
            grant_requests := EKEntityTypeReminder :: grant_requests h |},
         false)).
Proof.
  unfold request_event_access, request_reminder_access.
  split; intros Hs Hg; rewrite Hs; cbn [status_eqb];
    cbn [requestAccessToEntityType_completion_ grant_behaviour];
    rewrite Hg; reflexivity.
Qed.

Lemma silent_host_witness :
  Calendar.request_event_access Fixtures.fresh_manager Fixtures.silent_host
  = (Fixtures.fresh_manager,
     {| Calendar.authorizationStatusForEntityType_ :=
          fun _ => Calendar.EKAuthorizationStatusNotDetermined;
        Calendar.grant_behaviour := fun _ => Calendar.NoCompletion;
        Calendar.clock := 130%Z;
        Calendar.grant_requests := [Calendar.EKEntityTypeEvent] |},
     false)
  /\ snd (Calendar.request_reminder_access Fixtures.fresh_manager
            Fixtures.silent_host) = false.
Proof.
  destruct (silent_host_is_denied_at_timeout Fixtures.fresh_manager
              Fixtures.silent_host) as [He Hr].
  split.
  - apply He; reflexivity.
  - rewrite Hr; reflexivity.
Defined.

(** A completion handler that runs only after the wait has given up
    changes nothing: the call has answered [False] at 30 time units. *)
Lemma late_completion_is_ignored (self : manager) (h : access_host)
  (delay : Z) (success : bool) :
  authorizationStatusForEntityType_ h EKEntityTypeEvent
  = EKAuthorizationStatusNotDetermined ->
  grant_behaviour h EKEntityTypeEvent = CompletionAfter delay success ->
  (30 <= delay)%Z ->
  snd (request_event_access self h) = false
  /\ clock (snd (fst (request_event_access self h))) = (clock h + 30)%Z.
Proof.
  intros Hs Hg Hd. unfold request_event_access. rewrite Hs.
  cbn [status_eqb requestAccessToEntityType_completion_ grant_behaviour].
  rewrite Hg. unfold event_wait.
  destruct (delay <? 30)%Z eqn:E; [apply Z.ltb_lt in E; lia|].
  split; reflexivity.
Qed.

End AccessGrant.

(** ** Calendars and reminder lists by name *)

Section Containers.

Import PyStr Calendar Manager Optional.

Context {F : Foundation} {E : EventKit} {C : DateComponents}
  {R : ReminderKit}.

Lemma find_none_iff {A : Type} (p : A -> bool) (l : list A) :
  find p l = None <-> forall x, In x l -> p x = false.
Proof.
  split.
  - intros H x Hx. exact (find_none p l H x Hx).
  - induction l as [|y l IH]; simpl; intros H; [reflexivity|].
    rewrite (H y (or_introl eq_refl)). apply IH. intros x Hx.
    apply H. right. exact Hx.
Qed.

Lemma find_of_split {A : Type} (p : A -> bool) (before after : list A)
  (x : A) :
  Forall (fun y => p y = false) before -> p x = true ->
  find p (before ++ x :: after) = Some x.
Proof.
  intros Hb Hx. induction Hb as [|y before Hy _ IH]; simpl.
  - rewrite Hx. reflexivity.
  - rewrite Hy. exact IH.
Qed.

Lemma first_with_title (calendars : list EKCalendar) (name : string)
  (c : EKCalendar) :
  find (fun cal => String.eqb (title cal) name) calendars = Some c <->
  exists before after,
    calendars = (before ++ c :: after)%list
    /\ title c = name
    /\ Forall (fun b => title b <> name) before.
Proof.
  split.
  - intros H. destruct (find_splits _ _ _ H) as (before & after & Hs & Hb & Hc).
    exists before, after. split; [exact Hs|]. split.
    + apply String.eqb_eq. exact Hc.
    + eapply Forall_impl; [|exact Hb]. intros b Hn. apply String.eqb_neq.
      exact Hn.
  - intros (before & after & -> & Hc & Hb). apply find_of_split.
    + eapply Forall_impl; [|exact Hb]. intros b Hn. apply String.eqb_neq.
      exact Hn.
    + apply String.eqb_eq. exact Hc.
Qed.

(** The comprehension [[c for c in calendars if c]] over the looked-up
    names: the calendars of the names that have one, in the order of the
    names. *)
Lemma resolved_names {A : Type} (lookup : string -> option A)
  (names : list string) :
  Forall2 (fun c name => lookup name = Some c)
    (flat_map (fun o : option A => match o with Some c => [c] | None => [] end)
       (map lookup names))
    (filter (fun name => is_some (lookup name)) names).
Proof.
  induction names as [|n names IH]; simpl.
  - constructor.
  - destruct (lookup n) as [c|] eqn:Hn; simpl.
    + constructor; assumption.
    + exact IH.
Qed.

Lemma event_dicts_raise (l : list EKEvent) (ex : Py.exn) :
  event_dicts l = Py.Raise ex ->
  exists attribute, ex = missing_attribute attribute.
Proof.
  induction l as [|e l IH]; cbn [event_dicts]; intros H.
  - discriminate.
  - unfold event_dict in H.
    destruct (startDate e), (endDate e), (calendar e);
      try (injection H as <-; eexists; reflexivity).
    destruct (event_dicts l) as [result|ex'].
    + discriminate.
    + injection H as <-. apply IH. reflexivity.
Qed.

Lemma reminder_dicts_raise (l : list EKReminder) (ex : Py.exn) :
  reminder_dicts l = Py.Raise ex -> ex = no_attribute "title".
Proof.
  induction l as [|r l IH]; cbn [reminder_dicts]; intros H.
  - discriminate.
  - destruct (reminder_calendar r).
    + destruct (reminder_dicts l) as [result|ex'].
      * discriminate.
      * injection H as <-. apply IH. reflexivity.
    + injection H as <-. reflexivity.
Qed.

(** C7, as the code has it.  A calendar or reminder list is found by
    its title being equal to the name, character for character, and it
    is the first calendar with that title in the store's order: every
    calendar before it has another title.  No calendar with that title
    means no result.  [create_event] and [create_reminder] turn a given
    name that matches nothing into [ValueError: Calendar '<name>' not
    found] and [ValueError: Reminder list '<name>' not found] and save
    nothing; when the name is found, what they save is in the calendar
    found and no such error is raised.  [get_events] and [get_reminders]
    never raise for a name: with no names, or an empty list of them, the
    store is asked without calendars; otherwise it is asked for the
    calendars of the names that have one, in the order of the names, the
    other names being dropped, possibly all of them.  The only exception
    they end on is the [AttributeError] for an event or reminder that
    lacks a date or a calendar. *)
Theorem container_resolution (store : EKEventStore) :
  (forall (name entity_type : string) (c : EKCalendar),
      get_calendar_by_name store name entity_type = Some c <->
      exists before after,
        calendarsForEntityType_ store
          (if String.eqb entity_type "event" then EKEntityTypeEvent
           else EKEntityTypeReminder)
        = (before ++ c :: after)%list
        /\ title c = name
        /\ Forall (fun b => title b <> name) before)
  /\ (forall name entity_type : string,
         get_calendar_by_name store name entity_type = None <->
         (forall c,
             In c (calendarsForEntityType_ store
                     (if String.eqb entity_type "event" then EKEntityTypeEvent
                      else EKEntityTypeReminder)) ->
             title c <> name))
  /\ (forall name : string,
         get_reminder_list_by_name store name
         = get_calendar_by_name store name "reminder")
  /\ (forall (title_ name : string) (start end_ : datetime)
             (location_ notes_ url : option string) (all_day : bool),
         name <> EmptyString ->
         match get_calendar_by_name store name "event" with
         | None =>
             create_event store title_ start end_ (Some name) location_
               notes_ all_day url
             = (store,
                Py.Raise
                  (Py.ValueError ("Calendar '" ++ name ++ "' not found")))
         | Some cal =>
             (exists event : EKEvent,
                 calendar event = Some cal
                 /\ event_title event = Some title_
                 /\ fst (create_event store title_ start end_ (Some name)
                           location_ notes_ all_day url)
                    = fst (fst (saveEvent_span_error_ store event
                                  EKSpanThisEvent)))
             /\ snd (create_event store title_ start end_ (Some name)
                       location_ notes_ all_day url)
                <> Py.Raise
                     (Py.ValueError ("Calendar '" ++ name ++ "' not found"))
         end)
  /\ (forall (title_ name : string) (due_date : option datetime)
             (notes_ : option string) (priority_ : Z),
         name <> EmptyString ->
         match get_reminder_list_by_name store name with
         | None =>
             create_reminder store title_ due_date (Some name) notes_
               priority_
             = (store,
                Py.Raise
                  (Py.ValueError
                     ("Reminder list '" ++ name ++ "' not found")))
         | Some reminder_list =>
             (exists reminder : EKReminder,
                 reminder_calendar reminder = Some reminder_list
                 /\ reminder_title reminder = Some title_
                 /\ fst (create_reminder store title_ due_date (Some name)
                           notes_ priority_)
                    = fst (fst (saveReminder_commit_error_ store reminder)))
             /\ snd (create_reminder store title_ due_date (Some name)
                       notes_ priority_)
                <> Py.Raise
                     (Py.ValueError
                        ("Reminder list '" ++ name ++ "' not found"))
         end)
  /\ (forall (start end_ : datetime) (calendar_names : option (list string)),
         exists calendars : option (list EKCalendar),
           get_events store start end_ calendar_names
           = event_dicts
               match eventsMatching store (_nsdate_from_datetime start)
                       (_nsdate_from_datetime end_) calendars with
               | Some l => l
               | None => []
               end
           /\ match calendar_names with
              | Some (n :: l) =>
                  exists found : list EKCalendar,
                    calendars = Some found
                    /\ Forall2
                         (fun c name =>
                            get_calendar_by_name store name "event" = Some c)
                         found
                         (filter
                            (fun name =>
                               is_some
                                 (get_calendar_by_name store name "event"))
                            (n :: l))
              | _ => calendars = None
              end
           /\ forall ex : Py.exn,
               get_events store start end_ calendar_names = Py.Raise ex ->
               exists attribute, ex = missing_attribute attribute)
  /\ (forall (list_names : option (list string)) (include_completed : bool),
         exists calendars : option (list EKCalendar),
           get_reminders store list_names include_completed
           = reminder_dicts
               (fetched (fetchReminders store include_completed calendars) 30)
           /\ match list_names with
              | Some (n :: l) =>
                  exists found : list EKCalendar,
                    calendars = Some found
                    /\ Forall2
                         (fun c name =>
                            get_reminder_list_by_name store name = Some c)
                         found
                         (filter
                            (fun name =>
                               is_some (get_reminder_list_by_name store name))
                            (n :: l))
              | _ => calendars = None
              end
           /\ forall ex : Py.exn,
               get_reminders store list_names include_completed = Py.Raise ex ->
               ex = no_attribute "title").
Proof.
  repeat match goal with |- _ /\ _ => split end.
  - intros name entity_type c. unfold get_calendar_by_name.
    apply first_with_title.
  - intros name entity_type. unfold get_calendar_by_name.
    rewrite find_none_iff. split; intros H c Hc.
    + intros Heq. apply String.eqb_eq in Heq. rewrite (H c Hc) in Heq.
      discriminate.
    + apply String.eqb_neq. apply H. exact Hc.
  - reflexivity.
  - intros title_ name start end_ location_ notes_ url all_day Hname.
    assert (Ht : truthy (Some name) = true)
      by (destruct name; [contradiction | reflexivity]).
    unfold create_event. rewrite Ht. cbn [the].
    destruct (get_calendar_by_name store name "event") as [cal|];
      [|reflexivity].
    split.
    + match goal with
      | |- context [saveEvent_span_error_ store ?e _] => exists e
      end.
      split; [reflexivity|]. split; [reflexivity|].
      destruct (saveEvent_span_error_ store _ EKSpanThisEvent)
        as [[store1 saved] [success error]].
      destruct success; cbn [negb fst]; [|reflexivity].
      destruct (calendar saved); reflexivity.
    + destruct (saveEvent_span_error_ store _ EKSpanThisEvent)
        as [[store1 saved] [success error]].
      destruct success; cbn [negb snd]; [|discriminate].
      destruct (calendar saved); discriminate.
  - intros title_ name due_date notes_ priority_ Hname.
    assert (Ht : truthy (Some name) = true)
      by (destruct name; [contradiction | reflexivity]).
    unfold create_reminder. rewrite Ht. cbn [the].
    destruct (get_reminder_list_by_name store name) as [reminder_list|];
      [|reflexivity].
    split.
    + match goal with
      | |- context [saveReminder_commit_error_ store ?r] => exists r
      end.
      split; [reflexivity|]. split; [reflexivity|].
      destruct (saveReminder_commit_error_ store _)
        as [[store1 saved] [success error]].
      destruct success; cbn [negb fst]; [|reflexivity].
      destruct (reminder_calendar saved); reflexivity.
    + destruct (saveReminder_commit_error_ store _)
        as [[store1 saved] [success error]].
      destruct success; cbn [negb snd]; [|discriminate].
      destruct (reminder_calendar saved); discriminate.
  - intros start end_ calendar_names.
    exists (get_events_calendars store calendar_names).
    split; [reflexivity|]. split.
    + destruct calendar_names as [[|n l]|]; try reflexivity.
      eexists. split; [reflexivity|]. apply resolved_names.
    + intros ex. unfold get_events. apply event_dicts_raise.
  - intros list_names include_completed.
    exists (get_reminders_calendars store list_names).
    split; [reflexivity|]. split.
    + destruct list_names as [[|n l]|]; try reflexivity.
      eexists. split; [reflexivity|].
      apply (resolved_names (get_reminder_list_by_name store)).
    + intros ex. unfold get_reminders. apply reminder_dicts_raise.
Qed.

(** The calendar surface has no error envelope.  With event access
    granted, [delete-event] on an identifier the store does not know
    prints nothing on standard output: [delete_event] raises
    [ValueError: Event '<id>' not found], no handler catches it, and the
    process ends on that exception with exit code 1. *)
Lemma delete_unknown_event_raises (h : access_host) (store : EKEventStore)
  (event_id : string) (future : bool) :
  authorizationStatusForEntityType_ h EKEntityTypeEvent
  = EKAuthorizationStatusAuthorized ->
  eventWithIdentifier_ store event_id = None ->
  main_delete_event h store event_id future
  = (h, store,
     {| stdout := [];
        stderr := [Traceback
                     (Py.ValueError ("Event '" ++ event_id ++ "' not found"))];
        exit_code := 1;
        uncaught :=
          Some (Py.ValueError ("Event '" ++ event_id ++ "' not found")) |}).
Proof.
  intros Hs Hnone. unfold main_delete_event, request_event_access, delete_event.
  rewrite Hs. cbn [status_eqb negb]. rewrite Hnone. reflexivity.
Qed.

End Containers.

Lemma container_resolution_witness :
  @Calendar.get_calendar_by_name Fixtures.seconds Fixtures.simple
    Fixtures.office "Work" "event" = Some Fixtures.work
  /\ @Calendar.create_event Fixtures.seconds Fixtures.simple Fixtures.office
       "Lunch" 0%Z 3600%Z (Some "Nope") None None false None
     = (Fixtures.office,
        Py.Raise (Py.ValueError "Calendar 'Nope' not found"))
  /\ @Manager.create_reminder Fixtures.seconds Fixtures.simple Desk.minutes
       Desk.quiet Fixtures.office "Buy milk" None (Some "Errands") None 1%Z
     = (Fixtures.office,
        Py.Raise (Py.ValueError "Reminder list 'Errands' not found")).
Proof.
  destruct (@container_resolution Fixtures.seconds Fixtures.simple
              Desk.minutes Desk.quiet Fixtures.office)
    as (Hfirst & _ & _ & Hevent & Hreminder & _).
  split; [|split].
  - apply Hfirst. exists [], []. split; [reflexivity|].
    split; [reflexivity | constructor].
  - apply (Hevent "Lunch" "Nope" 0%Z 3600%Z None None None false).
    discriminate.
  - apply (Hreminder "Buy milk" "Errands" None None 1%Z). discriminate.
Defined.

(** C7, the claim as written, fails for queries: [get_events] asked for
    a calendar that does not exist reports no failure and returns a list,
    and asked for an unknown and a known calendar it returns the events
    of the known one; [get_reminders] does the same with reminder
    lists.  The title comparison is exact: [work] is not [Work]. *)
Lemma unknown_calendar_in_query_is_dropped :
  @Calendar.get_calendar_by_name Fixtures.seconds Fixtures.simple
    Fixtures.office "Nope" "event" = None
  /\ @Calendar.get_events Fixtures.seconds Fixtures.simple
       Fixtures.office 0%Z 3600%Z (Some ["Nope"])
     = Py.Return []
  /\ @Calendar.get_events Fixtures.seconds Fixtures.simple
       Fixtures.office 0%Z 3600%Z (Some ["Nope"; "Work"])
     = Py.Return
         [[("event_id", Py.Str "ev-1"); ("title", Py.Str "Stand-up");
           ("start", Py.Str "datetime"); ("end", Py.Str "datetime");
           ("location", Py.NoneValue); ("notes", Py.NoneValue);
           ("all_day", Py.Bool false); ("calendar", Py.Str "Work");
           ("url", Py.NoneValue)]]
  /\ @Manager.get_reminders Fixtures.seconds Fixtures.simple Desk.minutes
       Desk.answering Desk.home (Some ["Errands"]) false
     = Py.Return []
  /\ @Manager.get_reminders Fixtures.seconds Fixtures.simple Desk.minutes
       Desk.answering Desk.home (Some ["Errands"; "Chores"]) false
     = Py.Return
         [[("reminder_id", Py.Str "rem-1"); ("title", Py.Str "Post letter");
           ("due_date", Py.NoneValue); ("notes", Py.NoneValue);
           ("priority", Py.Int 0); ("completed", Py.Bool false);
           ("list", Py.Str "Chores")]]
  /\ @Calendar.get_calendar_by_name Fixtures.seconds Fixtures.simple
       Fixtures.office "work" "event" = None.
Proof. repeat split. Qed.

(** C2, the claim as written, fails on the calendar surface:
    [delete-event] with an unknown identifier prints no document and ends
    on an uncaught [ValueError]. *)
Lemma delete_event_unknown_id_escapes :
  let p := snd (@Calendar.main_delete_event Fixtures.seconds Fixtures.simple
                  Fixtures.granted_host Fixtures.office "ev-404" false) in
  Calendar.stdout p = []
  /\ Calendar.uncaught p = Some (Py.ValueError "Event 'ev-404' not found")
  /\ Calendar.exit_code p = 1%Z.
Proof. repeat split. Qed.

(** ** The two command lines *)

Section CommandLines.

Import PyStr Notes.

(** C2, as the code has it.  On the notes surface every command prints
    exactly one JSON document, the one its handler returns, and the
    exit code follows the run of the command's script.  The run has
    failed when [run_applescript] says so or, for the handlers that look
    for it, when the output starts with [ERROR:].  A failed run prints
    [{success: false, error: output}] and exits with code 1; any other
    run prints a document with [success: true] and exits with code 0.
    On the calendar surface there is no such envelope: with access
    granted, [delete-event] on an unknown identifier prints nothing on
    standard output and ends on the uncaught
    [ValueError: Event '<id>' not found], with exit code 1. *)
Theorem command_failures
  (osascript : string -> run_outcome) (c : command)
  (F : Calendar.Foundation) (E : Calendar.EventKit)
  (h : Calendar.access_host) (store : Calendar.EKEventStore)
  (event_id : string) (future : bool) :
  (let '(success, output) :=
     run_applescript osascript (Envelope.script_of c) in
   main osascript (Some c)
   = {| stdout := [JsonDocument (dispatch osascript c)];
        exit_code := if Envelope.failed c success output then 1 else 0 |}
   /\ if Envelope.failed c success output
      then dispatch osascript c
           = [("success", Py.Bool false); ("error", Py.Str output)]
      else Py.get (dispatch osascript c) "success" (Py.Bool false)
           = Py.Bool true)
  /\ (Calendar.authorizationStatusForEntityType_ h Calendar.EKEntityTypeEvent
      = Calendar.EKAuthorizationStatusAuthorized ->
      Calendar.eventWithIdentifier_ store event_id = None ->
      let p := snd (Calendar.main_delete_event h store event_id future) in
      Calendar.stdout p = []
      /\ Calendar.uncaught p
         = Some (Py.ValueError ("Event '" ++ event_id ++ "' not found"))
      /\ Calendar.exit_code p = 1%Z).
Proof.
  split.
  - unfold main, Envelope.failed.
    destruct c; cbn [dispatch Envelope.script_of Envelope.checks_error_prefix];
      unfold list_accounts, list_folders, list_notes, create_note, read_note,
        search_notes, delete_note, create_folder, append_to_note,
        get_note_count;
      destruct (run_applescript osascript _) as [[|] output];
      cbn [negb orb andb];
      try (split; reflexivity);
      destruct (startswith output "ERROR:"); split; reflexivity.
  - intros Hs Hnone.
    rewrite (delete_unknown_event_raises h store event_id future Hs Hnone).
    repeat split.
Qed.

End CommandLines.

Lemma command_failures_witness :
  Notes.main (fun _ => Notes.TimeoutExpired) (Some Notes.CmdCount)
  = {| Notes.stdout :=
         [Notes.JsonDocument
            [("success", Py.Bool false);
             ("error", Py.Str "AppleScript execution timed out")]];
       Notes.exit_code := 1 |}
  /\ Calendar.uncaught
       (snd (@Calendar.main_delete_event Fixtures.seconds Fixtures.simple
               Fixtures.granted_host Fixtures.office "ev-404" false))
     = Some (Py.ValueError "Event 'ev-404' not found").
Proof.
  destruct (command_failures (fun _ => Notes.TimeoutExpired) Notes.CmdCount
              Fixtures.seconds Fixtures.simple Fixtures.granted_host
              Fixtures.office "ev-404" false) as [[Hmain Hdoc] Hcal].
  split.
  - exact Hmain.
  - exact (proj1 (proj2 (Hcal eq_refl eq_refl))).
Defined.

(** ** Dates *)

Section Dates.

Import Calendar.

Context {F : Foundation}.

(** The way from a [datetime] to an [NSDate] and back is made of four
    host functions; the repository adds nothing to them. *)
Lemma date_round_trip_is_the_hosts (dt : datetime) :
  _datetime_from_nsdate (_nsdate_from_datetime dt)
  = fromtimestamp
      (timeIntervalSince1970 (dateWithTimeIntervalSince1970_ (timestamp dt))).
Proof. reflexivity. Qed.

End Dates.

Section PythonRoundTrip.

Import Calendar PythonDates.


End PythonRoundTrip.


(** * Further properties *)

(** ** Escaping *)

Lemma escaped_fields_witness :
  Template.code (Notes.read_note_script Titles.payload None None false)
  = Template.code (Notes.read_note_script "" None None false)
  /\ Template.code (Notes.search_notes_script Titles.inch) <> None.
Proof.
  pose proof (escaped_fields_are_data Titles.payload "" "b" "" Titles.inch ""
                "n" "" None None None None false eq_refl eq_refl) as H.
  split.
  - exact (proj1 (proj1 (proj2 (proj2 H)))).
  - exact (proj2 (proj1 (proj2 (proj2 (proj2 H))))).
Defined.

Section MoreEscaping.

Import PyStr Notes AppleScript Template Measure.

Lemma length_append (a b : string) :
  String.length (a ++ b) = String.length a + String.length b.
Proof. induction a as [|c a IH]; simpl; [reflexivity | rewrite IH; reflexivity]. Qed.

Lemma escape_length (s : string) :
  String.length (escape_for_applescript s) = String.length s + specials s.
Proof.
  induction s as [|c s IH].
  - reflexivity.
  - rewrite escape_cons, length_append, IH. unfold escape_char.
    cbn [String.length specials].
    destruct (Ascii.eqb c BACKSLASH) eqn:Eb.
    + rewrite orb_true_r. simpl. lia.
    + destruct (Ascii.eqb c DQUOTE) eqn:Eq; simpl; lia.
Qed.

Lemma specials_plain (s : string) : plain s = (specials s =? 0)%nat.
Proof.
  induction s as [|c s IH]; simpl.
  - reflexivity.
  - destruct (Ascii.eqb c DQUOTE), (Ascii.eqb c BACKSLASH); simpl;
      try reflexivity. exact IH.
Qed.

(** Escaping adds one character for every double quote and every
    backslash and nothing else, so the escaped text is at most twice as
    long; it leaves a text unchanged exactly when the text holds neither
    character. *)
Theorem escape_growth (text : string) :
  String.length (escape_for_applescript text)
  = String.length text + specials text
  /\ String.length (escape_for_applescript text) <= 2 * String.length text
  /\ String.eqb (escape_for_applescript text) text = plain text.
Proof.
  split; [apply escape_length|]. split.
  - rewrite escape_length.
    assert (specials text <= String.length text).
    { induction text as [|c s IH]; simpl; [lia|].
      destruct (Ascii.eqb c DQUOTE || Ascii.eqb c BACKSLASH); lia. }
    lia.
  - destruct (plain text) eqn:Hp.
    + rewrite (escape_plain text Hp). apply String.eqb_refl.
    + apply String.eqb_neq. intros Heq.
      pose proof (escape_length text) as Hl. rewrite Heq in Hl.
      rewrite specials_plain in Hp. apply Nat.eqb_neq in Hp. lia.
Qed.

(** Two different texts never have the same escaped form. *)
Theorem escape_injective (a b : string) :
  escape_for_applescript a = escape_for_applescript b -> a = b.
Proof.
  intros H.
  pose proof (read_literal_escape a EmptyString) as Ha.
  pose proof (read_literal_escape b EmptyString) as Hb.
  rewrite H in Ha. rewrite Ha in Hb. congruence.
Qed.

Ltac plain_title title H :=
  unfold literals, code, tokens; cbv zeta;
  replace (V title) with (V (escape_for_applescript title))
    by (rewrite (escape_plain title H); reflexivity);
  lex_template;
  cbv [option_map literals_of code_of app]; unfold snoc;
  rewrite ?append_assoc.

(** With a title that holds no double quote and no backslash the
    scripts of [delete_note] and [append_to_note] are well formed, with
    an account and without one: the title sits inside the lookup literal
    and inside the message literal, and nothing of the title, the text or
    the account is code. *)
Theorem plain_title_scripts (title text : string) (folder : option string)
  (account : string) :
  plain title = true ->
  account <> EmptyString ->
  literals (delete_note_script title folder None)
  = Some ["Notes"; title; "SUCCESS: Deleted note '" ++ title ++ "' from ";
          "ERROR: Note not found"]
  /\ literals (delete_note_script title folder (Some account))
     = Some ["Notes"; account; title;
             "SUCCESS: Deleted note '" ++ title ++ "'"; "ERROR: "]
  /\ literals (append_to_note_script title text None)
     = Some ["Notes"; title; "<br>"; text;
             "SUCCESS: Appended to note '" ++ title ++ "' in ";
             "ERROR: Note not found"]
  /\ literals (append_to_note_script title text (Some account))
     = Some ["Notes"; account; title; "<br>"; text;
             "SUCCESS: Appended to note '" ++ title ++ "'"; "ERROR: "]
  /\ code (delete_note_script title folder None)
     = code (delete_note_script "" folder None)
  /\ code (append_to_note_script title text None)
     = code (append_to_note_script "" "" None)
  /\ code (delete_note_script title folder (Some account))
     = code (delete_note_script "" folder (Some "a"))
  /\ code (append_to_note_script title text (Some account))
     = code (append_to_note_script "" "" (Some "a")).
Proof.
  intros Hp Ha.
  assert (Ht : truthy (Some account) = true)
    by (destruct account; [contradiction | reflexivity]).
  unfold delete_note_script, append_to_note_script. rewrite Ht.
  cbn [truthy the].
  repeat match goal with |- _ /\ _ => split end;
    plain_title title Hp; reflexivity.
Qed.

End MoreEscaping.

Lemma escape_injective_witness :
  Notes.escape_for_applescript Titles.inch
  = Notes.escape_for_applescript Titles.inch
  /\ Titles.inch = Titles.inch.
Proof.
  split; [reflexivity|].
  exact (escape_injective Titles.inch Titles.inch eq_refl).
Defined.

Lemma plain_title_witness :
  Template.literals (Notes.delete_note_script "Milk" None None)
  = Some ["Notes"; "Milk"; "SUCCESS: Deleted note 'Milk' from ";
          "ERROR: Note not found"].
Proof.
  refine (proj1 (plain_title_scripts "Milk" "more" None "iCloud" eq_refl _)).
  discriminate.
Defined.

(** ** Records of the textual store *)

Section Records.

Import PyStr Notes Measure.

Lemma split_pieces_lack_separator (sep : ascii) (s : string) :
  Forall (fun piece => has_char sep piece = false) (split sep s).
Proof.
  induction s as [|c s IH]; simpl.
  - constructor; [reflexivity | constructor].
  - destruct (Ascii.eqb c sep) eqn:E.
    + constructor; [reflexivity | exact IH].
    + destruct (split sep s) as [|h t].
      * constructor; [simpl; rewrite E; reflexivity | constructor].
      * inversion IH as [|? ? Hh Ht]; subst.
        constructor; [simpl; rewrite E; exact Hh | exact Ht].
Qed.

Lemma lstrip_lacks (c : ascii) (s : string) :
  has_char c s = false -> has_char c (lstrip s) = false.
Proof.
  induction s as [|a s IH]; simpl; intros H.
  - reflexivity.
  - apply orb_false_iff in H. destruct H as [Ha Hs].
    destruct (isspace a).
    + exact (IH Hs).
    + simpl. rewrite Ha, Hs. reflexivity.
Qed.

Lemma rstrip_lacks (c : ascii) (s : string) :
  has_char c s = false -> has_char c (rstrip s) = false.
Proof.
  induction s as [|a s IH]; simpl; intros H.
  - reflexivity.
  - apply orb_false_iff in H. destruct H as [Ha Hs].
    specialize (IH Hs). destruct (rstrip s) as [|b r].
    + destruct (isspace a); simpl; [reflexivity|].
      rewrite Ha. reflexivity.
    + change (has_char c (String a (String b r)))
        with (Ascii.eqb a c || has_char c (String b r)).
      rewrite Ha, IH. reflexivity.
Qed.

(** Every record that [stripped_lines] yields is a non-empty text
    without white space at either end and without a line feed inside,
    and there are never more records than lines. *)
Theorem stripped_lines_are_single_lines (output : string) :
  Forall (fun record =>
            record <> EmptyString
            /\ strip record = record
            /\ has_char LF record = false)
    (stripped_lines output)
  /\ List.length (stripped_lines output) <= List.length (split LF output).
Proof.
  split.
  - apply Forall_forall. intros record H. unfold stripped_lines in H.
    apply in_map_iff in H. destruct H as [line [<- Hin]].
    apply filter_In in Hin. destruct Hin as [Hin Hne].
    split; [|split].
    + intros E. rewrite E in Hne. discriminate.
    + apply strip_idempotent.
    + pose proof (split_pieces_lack_separator LF output) as Hall.
      rewrite Forall_forall in Hall. unfold strip.
      apply rstrip_lacks, lstrip_lacks, Hall, Hin.
  - unfold stripped_lines. rewrite length_map. apply filter_length_le.
Qed.

Lemma lower_char_idempotent (c : ascii) :
  lower_char (lower_char c) = lower_char c.
Proof.
  destruct c as [[] [] [] [] [] [] [] []]; reflexivity.
Qed.

Lemma lower_idempotent (s : string) : lower (lower s) = lower s.
Proof.
  induction s as [|c s IH]; simpl.
  - reflexivity.
  - rewrite lower_char_idempotent, IH. reflexivity.
Qed.

(** [search_notes] sends the query in lower case: a query and its
    lower-case form give the same script, and so do two queries that
    differ only in the case of their letters. *)
Theorem search_ignores_query_case (query : string) :
  search_notes_script (lower query) = search_notes_script query
  /\ (forall other : string,
         String.eqb (lower other) (lower query) = true ->
         search_notes_script other = search_notes_script query).
Proof.
  split.
  - unfold search_notes_script. rewrite lower_idempotent. reflexivity.
  - intros other H. apply String.eqb_eq in H. unfold search_notes_script.
    rewrite H. reflexivity.
Qed.

End Records.

Lemma search_ignores_query_case_witness :
  Notes.search_notes_script "MILK" = Notes.search_notes_script "Milk".
Proof.
  exact (proj2 (search_ignores_query_case "Milk") "MILK" eq_refl).
Defined.

(** ** More on the access grant *)

Section AccessEffects.

Import Calendar Hosts.

(** Asking for event access never touches the reminder flag of the
    manager, and asking for reminder access never touches the event
    flag.  The flag that belongs to the call ends up equal to the answer,
    except when the host reports a settled refusal: then the flag keeps
    the value it had. *)
Theorem access_flags (self : manager) (h : access_host) :
  _authorized_reminders (fst (fst (request_event_access self h)))
  = _authorized_reminders self
  /\ _authorized_events (fst (fst (request_reminder_access self h)))
     = _authorized_events self
  /\ _authorized_events (fst (fst (request_event_access self h)))
     = (if settled_refusal
             (authorizationStatusForEntityType_ h EKEntityTypeEvent)
        then _authorized_events self
        else snd (request_event_access self h))
  /\ _authorized_reminders (fst (fst (request_reminder_access self h)))
     = (if settled_refusal
             (authorizationStatusForEntityType_ h EKEntityTypeReminder)
        then _authorized_reminders self
        else snd (request_reminder_access self h)).
Proof.
  unfold request_event_access, request_reminder_access.
  destruct (authorizationStatusForEntityType_ h EKEntityTypeEvent),
    (authorizationStatusForEntityType_ h EKEntityTypeReminder);
    cbn [status_eqb settled_refusal];
    repeat match goal with
      | |- context [event_wait ?c ?t] => destruct (event_wait c t)
      end;
    repeat split.
Qed.

Lemma event_wait_bounds (c : completion) :
  (0 <= fst (event_wait c 30) <= 30)%Z.
Proof.
  unfold event_wait. destruct c as [delay success|]; cbn [fst]; [|lia].
  destruct (delay <? 30)%Z eqn:E; cbn [fst]; [|lia].
  apply Z.ltb_lt in E. lia.
Qed.

(** Whatever the host does, a call for access comes back within 30
    time units, sends at most one grant request, and leaves alone what
    the host will do with later requests and the status of the other
    entity type. *)
Theorem access_is_bounded (self : manager) (h : access_host) :
  let he := snd (fst (request_event_access self h)) in
  let hr := snd (fst (request_reminder_access self h)) in
  (clock h <= clock he <= clock h + 30)%Z
  /\ (clock h <= clock hr <= clock h + 30)%Z
  /\ (grant_requests he = grant_requests h
      \/ grant_requests he = EKEntityTypeEvent :: grant_requests h)
  /\ (grant_requests hr = grant_requests h
      \/ grant_requests hr = EKEntityTypeReminder :: grant_requests h)
  /\ grant_behaviour he = grant_behaviour h
  /\ grant_behaviour hr = grant_behaviour h
  /\ authorizationStatusForEntityType_ he EKEntityTypeReminder
     = authorizationStatusForEntityType_ h EKEntityTypeReminder
  /\ authorizationStatusForEntityType_ hr EKEntityTypeEvent
     = authorizationStatusForEntityType_ h EKEntityTypeEvent.
Proof.
  unfold request_event_access, request_reminder_access.
  cbn [requestAccessToEntityType_completion_ grant_behaviour].
  pose proof (event_wait_bounds (grant_behaviour h EKEntityTypeEvent)) as He.
  pose proof (event_wait_bounds (grant_behaviour h EKEntityTypeReminder)) as Hr.
  destruct (authorizationStatusForEntityType_ h EKEntityTypeEvent) eqn:Se,
    (authorizationStatusForEntityType_ h EKEntityTypeReminder) eqn:Sr;
    cbn [status_eqb];
    destruct (event_wait (grant_behaviour h EKEntityTypeEvent) 30)
      as [ee [fe|]];
    destruct (event_wait (grant_behaviour h EKEntityTypeReminder) 30)
      as [er [fr|]];
    cbn [fst snd clock grant_requests grant_behaviour after_wait
         authorizationStatusForEntityType_ entity_eqb
         requestAccessToEntityType_completion_] in *;
    repeat match goal with |- _ /\ _ => split end;
    try lia; try (left; reflexivity); try (right; reflexivity);
    try reflexivity; try assumption.
Qed.

(** When the status is not determined and the host calls the
    completion handler before the 30 time units are over, the call
    returns at that moment with the handler's answer and records it in
    the manager. *)
Theorem completion_in_time (self : manager) (h : access_host)
  (delay : Z) (success : bool) :
  authorizationStatusForEntityType_ h EKEntityTypeEvent
  = EKAuthorizationStatusNotDetermined ->
  grant_behaviour h EKEntityTypeEvent = CompletionAfter delay success ->
  (0 <= delay < 30)%Z ->
  snd (request_event_access self h) = success
  /\ clock (snd (fst (request_event_access self h))) = (clock h + delay)%Z
  /\ _authorized_events (fst (fst (request_event_access self h))) = success
  /\ grant_requests (snd (fst (request_event_access self h)))
     = EKEntityTypeEvent :: grant_requests h.
Proof.
  intros Hs Hg Hd. unfold request_event_access. rewrite Hs.
  cbn [status_eqb requestAccessToEntityType_completion_ grant_behaviour].
  rewrite Hg. unfold event_wait.
  destruct (delay <? 30)%Z eqn:E; [|apply Z.ltb_ge in E; lia].
  cbn [fst snd clock after_wait _authorized_events grant_requests].
  repeat split. rewrite Z.max_r by lia. reflexivity.
Qed.

End AccessEffects.

Lemma completion_in_time_witness :
  snd (Calendar.request_event_access Fixtures.fresh_manager Hosts.prompt_host)
  = true
  /\ Calendar.clock
       (snd (fst (Calendar.request_event_access Fixtures.fresh_manager
                    Hosts.prompt_host))) = 105%Z.
Proof.
  destruct (completion_in_time Fixtures.fresh_manager Hosts.prompt_host
              5%Z true eq_refl eq_refl) as (Ha & Hc & _).
  - lia.
  - split; [exact Ha | exact Hc].
Defined.

(** ** More on events *)

Section EventEffects.

Import PyStr Calendar Optional.

Context {F : Foundation} {E : EventKit}.

(** For [create_event] an empty string is the same as no value: an
    empty calendar name selects the default calendar, and an empty
    location, note or URL is not set on the event. *)
Theorem create_event_empty_is_absent (store : EKEventStore) (title_ : string)
  (start end_ : datetime) (calendar_name location_ notes_ url : option string)
  (all_day : bool) :
  create_event store title_ start end_ calendar_name location_ notes_
    all_day url
  = create_event store title_ start end_ (given calendar_name)
      (given location_) (given notes_) all_day (given url).
Proof.
  unfold create_event, given.
  destruct calendar_name as [[|c0 c]|], location_ as [[|l0 l]|],
    notes_ as [[|n0 n]|], url as [[|u0 u]|]; reflexivity.
Qed.



(** [delete-event] on the command line.  The exit code is 0 exactly
    when access was granted, the store knows the identifier and the
    removal succeeded, and only then is a line printed on standard
    output.  Without access the store is left as it was and the only
    output is the refusal on standard error. *)
Theorem delete_event_command (h : access_host) (store : EKEventStore)
  (event_id : string) (future : bool) :
  let granted :=
    snd (request_event_access
           {| _authorized_events := false; _authorized_reminders := false |}
           h) in
  let removed :=
    match eventWithIdentifier_ store event_id with
    | Some event =>
        fst (snd (removeEvent_span_error_ store event
                    (if future then EKSpanFutureEvents else EKSpanThisEvent)))
    | None => false
    end in
  let '(h', store', p) := main_delete_event h store event_id future in
  (exit_code p =? 0)%Z = granted && removed
  /\ stdout p = (if granted && removed
                 then ["Deleted event: " ++ event_id] else [])
  /\ (if granted then True
      else store' = store
           /\ stderr p = [Message "Error: Calendar access not granted"]
           /\ uncaught p = None)
  /\ h' = snd (fst (request_event_access
                      {| _authorized_events := false;
                         _authorized_reminders := false |} h)).
Proof.
  unfold main_delete_event.
  destruct (request_event_access _ h) as [[mgr h1] granted].
  cbn [fst snd]. destruct granted; cbn [negb andb].
  - unfold delete_event.
    destruct (eventWithIdentifier_ store event_id) as [event|].
    + destruct (removeEvent_span_error_ store event _)
        as [store1 [success error]].
      cbn [fst snd]. destruct success; repeat split.
    + repeat split.
  - repeat split.
Qed.

End EventEffects.

(** ** The command line of calendar_utils.py *)

Section CalendarCommands.

Import PyStr Calendar Manager CommandLine.

Context {F : Foundation} {E : EventKit} {D : CalendarDetails}
  {C : DateComponents} {R : ReminderKit} {K : Clock}.


(** A run ends in one of two ways: exit code 0 with exactly one item on
    standard output and nothing on standard error, or exit code 1 with
    nothing on standard output and one line on standard error.  No
    command prints a failure on standard output. *)
Theorem main_exit_codes (h : access_host) (store : EKEventStore)
  (c : command) :
  let p := snd (main h store c) in
  (exit_code p = 0%Z /\ uncaught p = None /\ stderr p = []
   /\ exists item, stdout p = [item])
  \/ (exit_code p = 1%Z /\ stdout p = []
      /\ exists line, stderr p = [line]
         /\ match uncaught p with
            | Some e => line = Traceback e
            | None => exists text, line = Message text
            end).
Proof.
  unfold main.
  destruct (if is_reminder_command c then _ else _) as [[mgr h1] granted].
  destruct granted; cbn [negb].
  - destruct (handler store c) as [store1 [p|e]]; cbn [snd].
    + left. repeat split. eexists. reflexivity.
    + right. repeat split. eexists. split; reflexivity.
  - right. cbn [snd]. repeat split. eexists. split; [reflexivity|].
    eexists. reflexivity.
Qed.

(** The listing commands never change the store, whether they succeed
    or end on an exception; and a date that [fromisoformat] rejects ends
    [create-event] and [create-reminder] before the store is touched. *)
Theorem listings_and_bad_dates_leave_the_store (h : access_host)
  (store : EKEventStore) (c : command) :
  (if is_listing c then snd (fst (main h store c)) = store else True)
  /\ match c with
     | CreateEvent _ start _ _ _ _ _ _ =>
         match fromisoformat start with
         | Failed _ => snd (fst (main h store c)) = store
         | Done _ => True
         end
     | CreateReminder _ (Some (String d0 d)) _ _ _ =>
         match fromisoformat (String d0 d) with
         | Failed _ => snd (fst (main h store c)) = store
         | Done _ => True
         end
     | _ => True
     end.
Proof.
  unfold main.
  destruct (if is_reminder_command c then _ else _) as [[mgr h1] granted].
  destruct granted; cbn [negb].
  - split.
    + destruct c; cbn [is_listing]; try exact I; cbn [handler];
        repeat match goal with
          | |- context [bind ?m ?k] => destruct (bind m k)
          end; reflexivity.
    + destruct c as [ | | t start e du ca lo no ad | | | | t due l n pr | | ];
        try exact I.
      * cbn [handler]. destruct (fromisoformat start) as [dt|ex];
          [exact I|]. reflexivity.
      * destruct due as [[|d0 d]|]; try exact I.
        cbn [handler truthy nonempty the].
        destruct (fromisoformat (String d0 d)) as [dt|ex];
          [exact I|]. reflexivity.
  - split.
    + destruct (is_listing c); [reflexivity | exact I].
    + destruct c as [ | | t start e du ca lo no ad | | | | t due l n pr | | ];
        try exact I.
      * destruct (fromisoformat start); [exact I | reflexivity].
      * destruct due as [[|d0 d]|]; try exact I.
        destruct (fromisoformat (String d0 d)); [exact I | reflexivity].
Qed.

End CalendarCommands.

(** ** Reminders, listings and updates *)

Section ManagerMethods.

Import PyStr Calendar Manager Optional.

Context {F : Foundation} {E : EventKit} {D : CalendarDetails}
  {C : DateComponents} {R : ReminderKit}.

(** For [create_reminder] an empty string is the same as no value: an
    empty list name selects the default list for new reminders, and an
    empty note is not set on the reminder. *)
Theorem create_reminder_empty_is_absent (store : EKEventStore)
  (title_ : string) (due_date : option datetime)
  (list_name notes_ : option string) (priority_ : Z) :
  create_reminder store title_ due_date list_name notes_ priority_
  = create_reminder store title_ due_date (given list_name) (given notes_)
      priority_.
Proof.
  unfold create_reminder, given.
  destruct list_name as [[|l0 l]|], notes_ as [[|n0 n]|]; reflexivity.
Qed.

(** [get_reminders] waits 30 time units for the store.  When the
    answer has not come by then, or is [nil], the result is the empty
    list and no error.  When it has come, the result has one entry for
    each reminder, in the store's order, unless one of the reminders has
    no calendar, which ends the call on an exception. *)
Theorem get_reminders_after_the_wait (store : EKEventStore)
  (list_names : option (list string)) (include_completed : bool) :
  match fetchReminders store include_completed
          (get_reminders_calendars store list_names) with
  | FetchedAfter delay (Some reminders) =>
      if (delay <? 30)%Z then
        match get_reminders store list_names include_completed with
        | Py.Return result =>
            map (fun d => Py.get d "reminder_id" Py.NoneValue) result
            = map (fun r => Py.Str (calendarItemIdentifier r)) reminders
            /\ existsb lacks_calendar reminders = false
        | Py.Raise e =>
            e = no_attribute "title"
            /\ existsb lacks_calendar reminders = true
        end
      else get_reminders store list_names include_completed = Py.Return []
  | _ => get_reminders store list_names include_completed = Py.Return []
  end.
Proof.
  unfold get_reminders.
  destruct (fetchReminders store include_completed _)
    as [delay [reminders|]|]; cbn [fetched]; try reflexivity.
  destruct (delay <? 30)%Z; [|reflexivity].
  induction reminders as [|r l IH]; cbn [reminder_dicts].
  - split; reflexivity.
  - cbn [existsb]. unfold lacks_calendar at 1 3.
    destruct (reminder_calendar r) as [cal|]; cbn [negb orb].
    + destruct (reminder_dicts l) as [result|e].
      * destruct IH as [IHm IHe]. split; [|exact IHe].
        cbn [map]. rewrite IHm. reflexivity.
      * exact IH.
    + split; reflexivity.
Qed.

(** Both listings have one entry per calendar, in the store's order.
    [list_calendars] lists the event calendars for the entity type
    [event] and the reminder lists for any other word, and
    [list_reminder_lists] prints what [list_calendars] prints for the
    reminder lists, without the type. *)
Theorem listings_follow_the_store (store : EKEventStore)
  (entity_type : string) :
  map (fun d => Py.get d "title" Py.NoneValue)
    (list_calendars store entity_type)
  = map (fun cal => Py.Str (title cal))
      (calendarsForEntityType_ store
         (if String.eqb entity_type "event" then EKEntityTypeEvent
          else EKEntityTypeReminder))
  /\ map (fun d => Py.get d "calendar_id" Py.NoneValue)
       (list_calendars store entity_type)
     = map (fun cal => Py.Str (calendarIdentifier cal))
         (calendarsForEntityType_ store
            (if String.eqb entity_type "event" then EKEntityTypeEvent
             else EKEntityTypeReminder))
  /\ list_reminder_lists store
     = map without_type (list_calendars store "reminder").
Proof.
  unfold list_calendars, list_reminder_lists.
  repeat match goal with |- _ /\ _ => split end.
  - rewrite map_map. reflexivity.
  - rewrite map_map. reflexivity.
  - rewrite map_map. reflexivity.
Qed.


(** An identifier the store does not know ends [update_event],
    [complete_reminder], [delete_reminder] and [update_reminder] on a
    [ValueError] that names it, before anything is saved or removed: the
    store is the one the call started with. *)
Theorem unknown_identifiers_change_nothing (store : EKEventStore)
  (id : string) (title_ notes_ location_ : option string)
  (start end_ : option datetime) (priority_ : option Z) (flag : bool) :
  (eventWithIdentifier_ store id = None ->
   update_event store id title_ start end_ location_ notes_ flag
   = (store, Py.Raise (Py.ValueError ("Event '" ++ id ++ "' not found")))
   /\ delete_event store id flag
      = (store, Py.Raise (Py.ValueError ("Event '" ++ id ++ "' not found"))))
  /\ (calendarItemWithIdentifier_ store id = None ->
      complete_reminder store id flag
      = (store, Py.Raise (Py.ValueError ("Reminder '" ++ id ++ "' not found")))
      /\ delete_reminder store id
         = (store,
            Py.Raise (Py.ValueError ("Reminder '" ++ id ++ "' not found")))
      /\ update_reminder store id title_ start notes_ priority_
         = (store,
            Py.Raise (Py.ValueError ("Reminder '" ++ id ++ "' not found")))).
Proof.
  split; intros H.
  - unfold update_event, delete_event. rewrite H. split; reflexivity.
  - unfold complete_reminder, delete_reminder, update_reminder. rewrite H.
    repeat split.
Qed.

End ManagerMethods.

Lemma unknown_identifiers_witness :
  @Manager.delete_reminder Fixtures.seconds Fixtures.simple Desk.minutes
    Desk.quiet Fixtures.office "rem-404"
  = (Fixtures.office, Py.Raise (Py.ValueError "Reminder 'rem-404' not found"))
  /\ fst (@Manager.update_event Fixtures.seconds Fixtures.simple
            Fixtures.office "ev-404" (Some "Retro") None None None None false)
     = Fixtures.office.
Proof.
  destruct (@unknown_identifiers_change_nothing Fixtures.seconds
              Fixtures.simple Desk.minutes Desk.quiet Fixtures.office
              "rem-404" None None None None None None false) as [_ Hr].
  destruct (@unknown_identifiers_change_nothing Fixtures.seconds
              Fixtures.simple Desk.minutes Desk.quiet Fixtures.office
              "ev-404" (Some "Retro") None None None None None false)
    as [He _].
  split.
  - exact (proj1 (proj2 (Hr eq_refl))).
  - rewrite (proj1 (He eq_refl)). reflexivity.
Defined.

Lemma late_completion_witness :
  snd (Calendar.request_event_access Fixtures.fresh_manager Hosts.late_host)
  = false
  /\ Calendar.clock
       (snd (fst (Calendar.request_event_access Fixtures.fresh_manager
                    Hosts.late_host))) = 130%Z.
Proof.
  apply (late_completion_is_ignored Fixtures.fresh_manager Hosts.late_host
           45%Z true eq_refl eq_refl).
  lia.
Defined.

(** ** Output that holds no record *)

Section BlankOutput.

Import PyStr Notes Measure.

Lemma lstrip_all_space (s : string) :
  all_space s = true -> lstrip s = EmptyString.
Proof.
  induction s as [|c s IH]; simpl; intros H.
  - reflexivity.
  - apply andb_true_iff in H. destruct H as [Hc Hs]. rewrite Hc.
    exact (IH Hs).
Qed.

Lemma strip_empty_all_space (s : string) :
  strip s = EmptyString -> all_space s = true.
Proof.
  unfold strip. induction s as [|c s IH]; simpl; intros H.
  - reflexivity.
  - destruct (isspace c) eqn:Hc.
    + simpl. exact (IH H).
    + exfalso. destruct (rstrip_head c s Hc) as [r' Hr].
      rewrite Hr in H. discriminate.
Qed.

Lemma split_all_space (sep : ascii) (s : string) :
  all_space s = true ->
  Forall (fun piece => all_space piece = true) (split sep s).
Proof.
  induction s as [|c s IH]; simpl; intros H.
  - constructor; [reflexivity | constructor].
  - apply andb_true_iff in H. destruct H as [Hc Hs]. specialize (IH Hs).
    destruct (Ascii.eqb c sep).
    + constructor; [reflexivity | exact IH].
    + destruct (split sep s) as [|p t].
      * constructor; [simpl; rewrite Hc; reflexivity | constructor].
      * inversion IH as [|? ? Hp Ht]; subst.
        constructor; [simpl; rewrite Hc, Hp; reflexivity | exact Ht].
Qed.

(** An output that is empty once trimmed, such as the output for an
    empty folder, decodes to no record at all: the listing commands then
    answer with an empty list and the count 0. *)
Theorem blank_output_has_no_records (osascript : string -> run_outcome)
  (output : string) (folder account : option string) (query : string) :
  strip output = EmptyString ->
  stripped_lines output = []
  /\ (run_applescript osascript (list_notes_script folder account)
      = (true, output) ->
      list_notes osascript folder account
      = [("success", Py.Bool true); ("notes", Py.StrList []);
         ("count", Py.Int 0)])
  /\ (run_applescript osascript (search_notes_script query)
      = (true, output) ->
      search_notes osascript query
      = [("success", Py.Bool true); ("query", Py.Str query);
         ("notes", Py.StrList []); ("count", Py.Int 0)]).
Proof.
  intros H.
  assert (Hl : stripped_lines output = []).
  { unfold stripped_lines.
    pose proof (split_all_space LF output (strip_empty_all_space _ H)) as Hall.
    induction Hall as [|p l Hp _ IH]; cbn [filter map]; [reflexivity|].
    assert (Hs : strip p = EmptyString)
      by (unfold strip; rewrite (lstrip_all_space p Hp); reflexivity).
    rewrite Hs. cbn [nonempty]. exact IH. }
  split; [exact Hl|]. split; intros Hrun.
  - unfold list_notes. rewrite Hrun. cbn [negb].
    assert (Hs : startswith output "ERROR:" = false).
    { destruct (startswith output "ERROR:") eqn:Hs; [exfalso | reflexivity].
      destruct output as [|c r]; [discriminate|].
      unfold startswith in Hs. cbn [prefix] in Hs.
      destruct (ascii_dec "E" c) as [<-|]; [|discriminate].
      destruct (strip_keeps_head "E" r eq_refl) as [r' Hr].
      rewrite Hr in H. discriminate. }
    rewrite Hs, Hl. reflexivity.
  - unfold search_notes. rewrite Hrun. cbn [negb]. rewrite Hl. reflexivity.
Qed.

End BlankOutput.

Lemma blank_output_witness :
  Notes.list_notes (fun _ => AppleScript.returns "") None None
  = [("success", Py.Bool true); ("notes", Py.StrList []); ("count", Py.Int 0)].
Proof.
  exact (proj1 (proj2
    (blank_output_has_no_records (fun _ => AppleScript.returns "") ""
       None None "milk" eq_refl)) eq_refl).
Defined.
